(** * usbdevs: descriptor decoding and reporting

    A shallow embedding of [usbdevs.c] and the properties of its
    enumeration driver, descriptor decoders, chained-descriptor walker and
    text renderers.

    Conventions of the embedding.
    - C integers are [Z]; bit operations are [Z.land], [Z.lor], [Z.shiftr].
    - A call of [printf], [puts], [warn], [errx], [malloc] or [ioctl] is an
      [event] of the run; the run of a function is the list of its events
      and an [outcome].  Format strings are kept as the C source spells them
      (escape sequences such as backslash-n are not expanded), and the
      arguments are kept next to the format instead of being formatted.
    - The fetched descriptor buffer is a [list Z] of bytes; a read at an
      offset outside of it ends the run with [Oob]. *)

From Stdlib Require Import ZArith List String Ascii Bool Lia.
Import ListNotations.
Local Open Scope string_scope.
Local Open Scope list_scope.
Local Open Scope Z_scope.

(** ** Constants of the source file *)

Definition C_DESC : Z := 2.
Definition S_DESC : Z := 3.
Definition I_DESC : Z := 4.
Definition E_DESC : Z := 5.

Definition MINIMUM (a b : Z) : Z := if a <? b then a else b.

(** ** Constants of the system headers the source includes

    [<dev/usb/usb.h>], [<errno.h>] and [<vis.h>] are not part of the
    repository; the values are those of the OpenBSD headers. *)

Definition ENXIO : Z := 6.

Definition VIS_OCTAL : Z := 1.
Definition VIS_CSTYLE : Z := 2.
Definition VIS_SP : Z := 4.
Definition VIS_TAB : Z := 8.
Definition VIS_NL : Z := 16.
Definition VIS_SAFE : Z := 32.
Definition VIS_NOSLASH : Z := 64.
Definition VIS_GLOB : Z := 256.
Definition VIS_DQ : Z := 512.
Definition VIS_ALL : Z := 1024.

Definition USB_MAX_DEVICES : Z := 128.
Definition USB_MAX_DEVNAMES : Z := 4.
Definition UC_POWER_FACTOR : Z := 2.
Definition UC_BUS_POWERED : Z := 128.
Definition UC_SELF_POWERED : Z := 64.
Definition UC_REMOTE_WAKEUP : Z := 32.

Definition USB_SPEED_LOW : Z := 1.
Definition USB_SPEED_FULL : Z := 2.
Definition USB_SPEED_HIGH : Z := 3.
Definition USB_SPEED_SUPER : Z := 4.

Definition UPS_CURRENT_CONNECT_STATUS : Z := 1.
Definition UPS_PORT_ENABLED : Z := 2.
Definition UPS_SUSPEND : Z := 4.
Definition UPS_OVERCURRENT_INDICATOR : Z := 8.
Definition UPS_PORT_L1 : Z := 32.
Definition UPS_PORT_LS_GET (x : Z) : Z := Z.land (Z.shiftr x 5) 15.
Definition UPS_PORT_LS_U0 : Z := 0.
Definition UPS_PORT_LS_U1 : Z := 1.
Definition UPS_PORT_LS_U2 : Z := 2.
Definition UPS_PORT_LS_U3 : Z := 3.
Definition UPS_PORT_LS_SS_DISABLED : Z := 4.
Definition UPS_PORT_LS_RX_DETECT : Z := 5.
Definition UPS_PORT_LS_SS_INACTIVE : Z := 6.
Definition UPS_PORT_LS_POLLING : Z := 7.
Definition UPS_PORT_LS_RECOVERY : Z := 8.
Definition UPS_PORT_LS_HOT_RESET : Z := 9.
Definition UPS_PORT_LS_COMP_MOD : Z := 10.
Definition UPS_PORT_LS_LOOPBACK : Z := 11.
Definition UPS_PORT_POWER : Z := 256.
Definition UPS_PORT_POWER_SS : Z := 512.

Definition nonzero (x : Z) : bool := negb (x =? 0).
Definition nonempty (s : string) : bool :=
  match s with EmptyString => false | String _ _ => true end.

(** ** libc's [strvis]

    [dump_device] escapes the four string fields with
    [strvis(dst, src, VIS_CSTYLE)].  [strvis] belongs to libc, not to the
    repository; what follows is [vis], [strvis] and the decoder [strunvis]
    of OpenBSD's libc as vis(3) and unvis(3) document them, in the C locale.
    Characters are handled through their codes 0..255. *)

Definition code (c : ascii) : Z := Z.of_N (N_of_ascii c).
Definition chr (n : Z) : ascii := ascii_of_N (Z.to_N n).

Fixpoint string_of_codes (l : list Z) : string :=
  match l with
  | [] => EmptyString
  | n :: l' => String (chr n) (string_of_codes l')
  end.

Definition has (flag bit : Z) : bool := nonzero (Z.land flag bit).
Definition isgraph (c : Z) : bool := (33 <=? c) && (c <=? 126).
Definition iscntrl (c : Z) : bool := ((0 <=? c) && (c <? 32)) || (c =? 127).
Definition isoctal (c : Z) : bool := (48 <=? c) && (c <=? 55).
Definition isglob (c : Z) : bool := (c =? 42) || (c =? 63) || (c =? 91) || (c =? 35).

Definition isvisible (c flag : Z) : bool :=
  ((c =? 92) || negb (has flag VIS_ALL))
  && ((isgraph c && (negb (isglob c) || negb (has flag VIS_GLOB)))
      || (negb (has flag VIS_SP) && (c =? 32))
      || (negb (has flag VIS_TAB) && (c =? 9))
      || (negb (has flag VIS_NL) && (c =? 10))
      || (has flag VIS_SAFE && ((c =? 8) || (c =? 7) || (c =? 13) || isgraph c))).

(** The [switch] of [vis] under [VIS_CSTYLE]: the letter of the C escape of
    [c], or [None] for a character that has none. *)
Definition cstyle (c nextc : Z) : option (list Z) :=
  if c =? 10 then Some [92; 110]
  else if c =? 13 then Some [92; 114]
  else if c =? 8 then Some [92; 98]
  else if c =? 7 then Some [92; 97]
  else if c =? 11 then Some [92; 118]
  else if c =? 9 then Some [92; 116]
  else if c =? 12 then Some [92; 102]
  else if c =? 32 then Some [92; 115]
  else if c =? 0 then Some ([92; 48] ++ (if isoctal nextc then [48; 48] else []))
  else None.

Definition vis_octal (c : Z) : list Z :=
  [92; Z.land (Z.shiftr c 6) 7 + 48; Z.land (Z.shiftr c 3) 7 + 48; Z.land c 7 + 48].

Definition vis_meta (c flag : Z) : list Z :=
  (if has flag VIS_NOSLASH then [] else [92])
  ++ (if nonzero (Z.land c 128) then [77] else [])
  ++ (let c7 := if nonzero (Z.land c 128) then Z.land c 127 else c in
      if iscntrl c7 then [94; if c7 =? 127 then 63 else c7 + 64]
      else [45; c7]).

(** The codes [vis(dst, c, flag, nextc)] appends to [dst]. *)
Definition vis (c flag nextc : Z) : list Z :=
  if isvisible c flag then
    (if ((c =? 34) && has flag VIS_DQ) || ((c =? 92) && negb (has flag VIS_NOSLASH))
     then [92] else []) ++ [c]
  else
    match (if has flag VIS_CSTYLE then cstyle c nextc else None) with
    | Some l => l
    | None =>
        if (Z.land c 127 =? 32) || has flag VIS_OCTAL || (has flag VIS_GLOB && isglob c)
        then vis_octal c
        else vis_meta c flag
    end.

(** [for (start = dst; (c = *src);) dst = vis(dst, c, flag, *++src);] *)
Fixpoint strvis (src : string) (flag : Z) : string :=
  match src with
  | EmptyString => EmptyString
  | String c rest =>
      if code c =? 0 then EmptyString
      else
        let nextc := match rest with EmptyString => 0 | String n _ => code n end in
        (string_of_codes (vis (code c) flag nextc) ++ strvis rest flag)%string
  end.

Definition push (c : Z) (o : option string) : option string :=
  option_map (String (chr c)) o.

Definition unctrl (c : Z) : Z := if c =? 63 then 127 else Z.land c 31.

Definition unescape (c : Z) : option Z :=
  if c =? 92 then Some 92
  else if c =? 110 then Some 10
  else if c =? 114 then Some 13
  else if c =? 98 then Some 8
  else if c =? 97 then Some 7
  else if c =? 118 then Some 11
  else if c =? 116 then Some 9
  else if c =? 102 then Some 12
  else if c =? 115 then Some 32
  else if c =? 69 then Some 27
  else None.

(** The decoder of unvis(3), for the sequences [vis] emits: a backslash
    followed by a backslash or a C escape letter, by [^c], [M-c], [M^c] or
    by three octal digits; every other character stands for itself.  A
    sequence that is none of these is an error, [None]. *)
Fixpoint strunvis (src : string) : option string :=
  match src with
  | EmptyString => Some EmptyString
  | String c r =>
      if code c =? 92 then
        match r with
        | EmptyString => None
        | String e r1 =>
            match unescape (code e) with
            | Some d => push d (strunvis r1)
            | None =>
                if code e =? 94 then
                  match r1 with
                  | String x r2 => push (unctrl (code x)) (strunvis r2)
                  | EmptyString => None
                  end
                else if code e =? 77 then
                  match r1 with
                  | String m (String x r3) =>
                      if code m =? 45 then push (Z.lor 128 (code x)) (strunvis r3)
                      else if code m =? 94 then push (Z.lor 128 (unctrl (code x))) (strunvis r3)
                      else None
                  | _ => None
                  end
                else if isoctal (code e) then
                  match r1 with
                  | String d2 (String d3 r3) =>
                      if isoctal (code d2) && isoctal (code d3) then
                        push (Z.land (64 * (code e - 48) + 8 * (code d2 - 48) + (code d3 - 48)) 255)
                             (strunvis r3)
                      else None
                  | _ => None
                  end
                else None
            end
        end
      else push (code c) (strunvis r)
  end.

(** ** Events and outcomes *)

Inductive parg : Type :=
| PInt (n : Z)
| PStr (s : string).

Inductive request : Type :=
| USB_DEVICEINFO
| USB_DEVICE_GET_DDESC
| USB_DEVICE_GET_CDESC
| USB_DEVICE_GET_FDESC.

Inductive event : Type :=
| Printf (fmt : string) (args : list parg)
| Puts (s : string)
| Warn (fmt : string) (args : list parg)
| Errx (fmt : string)
| Malloc (size : Z)
| Ioctl (req : request) (args : list Z).

Inductive outcome (A : Type) : Type :=
| Ret (a : A)
| Exit (code : Z)
| Oob (off : Z)
| Hang.

Arguments Ret {A} a.
Arguments Exit {A} code.
Arguments Oob {A} off.
Arguments Hang {A}.

(** The global [done] array is the state threaded through a run. *)
Definition marks : Type := list bool.

Definition M (A : Type) : Type := marks -> list event * outcome (A * marks).

Definition ret {A : Type} (a : A) : M A := fun s => ([], Ret (a, s)).

Definition bind {A B : Type} (m : M A) (f : A -> M B) : M B :=
  fun s =>
    match m s with
    | (t, Ret (a, s')) => let (t', o) := f a s' in (t ++ t', o)
    | (t, Exit c) => (t, Exit c)
    | (t, Oob off) => (t, Oob off)
    | (t, Hang) => (t, Hang)
    end.

Notation "x <- m ;; f" := (bind m (fun x => f))
  (at level 61, m at next level, right associativity).
Notation "m ;; f" := (bind m (fun _ => f))
  (at level 61, right associativity).

Definition emit (e : event) : M unit := fun s => ([e], Ret (tt, s)).
Definition printf (fmt : string) (args : list parg) : M unit := emit (Printf fmt args).
Definition puts (s : string) : M unit := emit (Puts s).
Definition warn (fmt : string) (args : list parg) : M unit := emit (Warn fmt args).
Definition errx {A : Type} (code : Z) (fmt : string) : M A :=
  fun _ => ([Errx fmt], Exit code).
Definition oob {A : Type} (off : Z) : M A := fun _ => ([], Oob off).
Definition hang {A : Type} : M A := fun _ => ([], Hang).
Definition when (c : bool) (m : M unit) : M unit := if c then m else ret tt.

(** [for (i = lo; i < lo + n; i++) body(i)], for a body that leaves [i]
    alone. *)
Fixpoint for_range (n : nat) (i : Z) (body : Z -> M unit) : M unit :=
  match n with
  | O => ret tt
  | S n' => body i ;; for_range n' (i + 1) body
  end.

(** A read of [arr[i]]. *)
Definition aread {A : Type} (arr : list A) (i : Z) : M A :=
  if i <? 0 then oob i
  else match nth_error arr (Z.to_nat i) with
       | Some a => ret a
       | None => oob i
       end.

(** ** Renderers of the chained sub-descriptors

    [buf] is the fetched buffer [dfd.udf_data], [cur] the offset of the
    cursor in it, so that [*(cur + i)] is [aread buf (cur + i)]. *)

Section Renderers.
Variable buf : list Z.

Definition print_fconfig (cur : Z) : M unit :=
  b5 <- aread buf (cur + 5) ;;
  printf "config %02u:\n" [PInt b5].

Definition print_iface (cur : Z) : M unit :=
  b2 <- aread buf (cur + 2) ;;
  b3 <- aread buf (cur + 3) ;;
  b4 <- aread buf (cur + 4) ;;
  b5 <- aread buf (cur + 5) ;;
  b6 <- aread buf (cur + 6) ;;
  b7 <- aread buf (cur + 7) ;;
  printf ("\t iface: %02u, altset: %02u, numendpts: %02u, "
          ++ "class: %02u, subclass: %02u, protocol: %02u\n")%string
         [PInt b2; PInt b3; PInt b4; PInt b5; PInt b6; PInt b7].

(** The inner [switch (attr & 0xC)] of [print_endpt], with its four
    labelled cases. *)
Definition sync_type (attr : Z) : M unit :=
  let v := Z.land attr 12 in
  if v =? 0 then printf "none, " []
  else if v =? 1 then printf "async, " []
  else if v =? 2 then printf "adaptive, " []
  else if v =? 3 then printf "sync, " []
  else ret tt.

(** The outer [switch (attr & 0x3)] of [print_endpt]. *)
Definition transfer_type (attr : Z) : M unit :=
  let v := Z.land attr 3 in
  if v =? 0 then printf "control, " []
  else if v =? 1 then
    printf "isochronous, " [] ;;
    printf "sync_type: " [] ;;
    sync_type attr
  else if v =? 2 then printf "bulk, " []
  else if v =? 3 then printf "interrupt, " []
  else ret tt.

Definition endpt_dir (b2 : Z) : string :=
  if Z.land b2 7 =? 0 then "out" else "in".

Definition UGETW (cur : Z) : M Z :=
  lo <- aread buf cur ;;
  hi <- aread buf (cur + 1) ;;
  ret (Z.lor lo (Z.shiftl hi 8)).

Definition print_endpt (cur : Z) : M unit :=
  b2 <- aread buf (cur + 2) ;;
  printf "\t \t endpt_addr: %02u, dir: %s, "
         [PInt (Z.land b2 3); PStr (endpt_dir b2)] ;;
  attr <- aread buf (cur + 3) ;;
  transfer_type attr ;;
  w <- UGETW (cur + 4) ;;
  b6 <- aread buf (cur + 6) ;;
  printf "max_packet: %u, polling_interval: %02u\n" [PInt w; PInt b6].

Definition print_unknown (cur : Z) : M unit :=
  b1 <- aread buf (cur + 1) ;;
  printf "\t unknown: %02u" [PInt b1] ;;
  len <- aread buf cur ;;
  for_range (Z.to_nat len) 0 (fun i =>
    when (i mod 10 =? 0) (printf "\n\t " []) ;;
    b <- aread buf (cur + i) ;;
    printf "0x%02x " [PInt b]) ;;
  printf "\n" [].

(** The [switch] of the walker's loop body. *)
Definition dispatch (cur : Z) : M unit :=
  tag <- aread buf (cur + 1) ;;
  if tag =? C_DESC then print_fconfig cur
  else if tag =? I_DESC then print_iface cur
  else if tag =? E_DESC then print_endpt cur
  else print_unknown cur.

(** The [for] loop of [print_full]:
    [for (cur = data; cur < data + wtotlen; cur += *cur)].  The loop has
    no bound of its own, so the model takes [fuel] and ends in [Hang] when
    it is used up.  The value returned is the list of the cursors at which
    a sub-descriptor was decoded (it is not in the C code, which returns
    nothing). *)
Fixpoint walk (fuel : nat) (wtotlen : Z) (cur : Z) : M (list Z) :=
  if cur <? wtotlen then
    match fuel with
    | O => hang
    | S fuel' =>
        dispatch cur ;;
        len <- aread buf cur ;;
        rest <- walk fuel' wtotlen (cur + len) ;;
        ret (cur :: rest)
    end
  else ret [].
End Renderers.

(** The run of the walker over a buffer of exactly [List.length buf] bytes. *)
Definition walker (fuel : nat) (buf : list Z) : list event * outcome (list Z * marks) :=
  walk buf fuel (Z.of_nat (List.length buf)) 0 [].


(** ** Records filled in by the kernel

    The integer fields hold the values [UGETW] and [UGETDW] read from them;
    the arrays [udi_devnames] and [udi_ports] are lists, whose length is the
    [nitems] of the C array. *)

Record usb_device_info : Type := {
  udi_bus : Z;
  udi_vendorNo : Z;
  udi_productNo : Z;
  udi_releaseNo : Z;
  udi_vendor : string;
  udi_product : string;
  udi_release : string;
  udi_serial : string;
  udi_speed : Z;
  udi_power : Z;
  udi_config : Z;
  udi_class : Z;
  udi_subclass : Z;
  udi_protocol : Z;
  udi_devnames : list string;
  udi_nports : Z;
  udi_ports : list Z
}.

Record usb_device_descriptor : Type := {
  bMaxPacketSize : Z;
  bNumConfigurations : Z;
  iManufacturer : Z
}.

Record usb_config_descriptor : Type := {
  bConfigurationValue : Z;
  bNumInterfaces : Z;
  bMaxPower : Z;
  bmAttributes : Z;
  wTotalLength : Z
}.

(** The answer of an [ioctl]: the record it filled in, or -1 with [errno]. *)
Inductive ioc (A : Type) : Type :=
| IocOk (a : A)
| IocErr (errno : Z).

Arguments IocOk {A} a.
Arguments IocErr {A} errno.

(** What the program is run against: the answers of the four device
    queries and whether [malloc] of a size succeeds. *)
Record system : Type := {
  deviceinfo : Z -> ioc usb_device_info;
  device_ddesc : Z -> ioc usb_device_descriptor;
  device_cdesc : Z -> Z -> ioc usb_config_descriptor;
  device_fdesc : Z -> Z -> Z -> ioc (list Z);
  malloc_ok : Z -> bool
}.


(** [port_state speed status] is the part of the port loop of [dump_device]
    between the [printf] of the port number and the final newline. *)
Definition link_state (status : Z) : M unit :=
  let ls := UPS_PORT_LS_GET status in
  if ls =? UPS_PORT_LS_U0 then printf " U0" []
  else if ls =? UPS_PORT_LS_U1 then printf " U1" []
  else if ls =? UPS_PORT_LS_U2 then printf " U2" []
  else if ls =? UPS_PORT_LS_U3 then printf " U3" []
  else if ls =? UPS_PORT_LS_SS_DISABLED then printf " SS.disabled" []
  else if ls =? UPS_PORT_LS_RX_DETECT then printf " Rx.detect" []
  else if ls =? UPS_PORT_LS_SS_INACTIVE then printf " ss.inactive" []
  else if ls =? UPS_PORT_LS_POLLING then printf " polling" []
  else if ls =? UPS_PORT_LS_RECOVERY then printf " recovery" []
  else if ls =? UPS_PORT_LS_HOT_RESET then printf " hot.reset" []
  else if ls =? UPS_PORT_LS_COMP_MOD then printf " comp.mod" []
  else if ls =? UPS_PORT_LS_LOOPBACK then printf " loopback" []
  else ret tt.

Definition port_state (speed status : Z) : M unit :=
  when (nonzero (Z.land status UPS_CURRENT_CONNECT_STATUS)) (printf " connect" []) ;;
  when (nonzero (Z.land status UPS_PORT_ENABLED)) (printf " enabled" []) ;;
  when (nonzero (Z.land status UPS_SUSPEND)) (printf " supsend" []) ;;
  when (nonzero (Z.land status UPS_OVERCURRENT_INDICATOR)) (printf " overcurrent" []) ;;
  if speed <? USB_SPEED_SUPER then
    when (nonzero (Z.land status UPS_PORT_L1)) (printf " l1" []) ;;
    when (nonzero (Z.land status UPS_PORT_POWER)) (printf " power" [])
  else
    when (nonzero (Z.land status UPS_PORT_POWER_SS)) (printf " power" []) ;;
    link_state status.

(** The body of the port loop. *)
Definition dump_port (di : usb_device_info) (port : Z) : M unit :=
  w <- aread (udi_ports di) port ;;
  let status := Z.land w 65535 in
  let change := Z.land (Z.shiftr w 16) 65535 in
  printf "\t port %02u: %04x.%04x" [PInt (port + 1); PInt change; PInt status] ;;
  port_state (udi_speed di) status ;;
  printf "\n" [].

(** The [verbose > 1] block of [dump_device]. *)
Definition dump_ports (di : usb_device_info) : M unit :=
  let nports := MINIMUM (udi_nports di) (Z.of_nat (List.length (udi_ports di))) in
  for_range (Z.to_nat nports) 0 (dump_port di).

Definition print_speed (speed : Z) : M unit :=
  if speed =? USB_SPEED_LOW then printf "low speed" []
  else if speed =? USB_SPEED_FULL then printf "full speed" []
  else if speed =? USB_SPEED_HIGH then printf "high speed" []
  else if speed =? USB_SPEED_SUPER then printf "super speed" []
  else ret tt.

(** [done[addr]], read and written. *)
Definition get_done (addr : Z) : M bool := fun s => aread s addr s.

Fixpoint mark (s : marks) (n : nat) : option marks :=
  match s, n with
  | [], _ => None
  | _ :: s', O => Some (true :: s')
  | b :: s', S n' => option_map (cons b) (mark s' n')
  end.

Definition set_done (addr : Z) : M unit :=
  fun s =>
    if addr <? 0 then ([], Oob addr)
    else match mark s (Z.to_nat addr) with
         | Some s' => ([], Ret (tt, s'))
         | None => ([], Oob addr)
         end.

Definition memset_done : M unit :=
  fun _ => ([], Ret (tt, repeat false (Z.to_nat USB_MAX_DEVICES))).

Section Program.
Variable sys : system.
(** The global [verbose], which [main] sets before any of the functions
    below runs. *)
Variable verbose : Z.

Definition ioctl {A : Type} (req : request) (args : list Z) (answer : ioc A) : M (ioc A) :=
  fun s => ([Ioctl req args], Ret (answer, s)).

Definition malloc (size : Z) : M bool :=
  fun s => ([Malloc size], Ret (malloc_ok sys size, s)).

Definition dump_device (addr : Z) : M unit :=
  r <- ioctl USB_DEVICEINFO [addr] (deviceinfo sys addr) ;;
  match r with
  | IocErr errno => when (negb (errno =? ENXIO)) (warn "addr %u" [PInt addr])
  | IocOk di =>
      set_done addr ;;
      let vv := strvis (udi_vendor di) VIS_CSTYLE in
      let vp := strvis (udi_product di) VIS_CSTYLE in
      printf "addr %02u: %04x:%04x %s, %s, usb_bus: %hhu"
             [PInt addr; PInt (udi_vendorNo di); PInt (udi_productNo di);
              PStr vv; PStr vp; PInt (udi_bus di)] ;;
      when (nonzero verbose)
        (printf "\n\t " [] ;;
         print_speed (udi_speed di) ;;
         (if nonzero (udi_power di)
          then printf ", power %d mA" [PInt (udi_power di)]
          else printf ", self powered" []) ;;
         (if nonzero (udi_config di)
          then printf ", config %d" [PInt (udi_config di)]
          else printf ", unconfigured" []) ;;
         let vr := strvis (udi_release di) VIS_CSTYLE in
         printf ", rev %s (0x%hx)" [PStr vr; PInt (udi_releaseNo di)] ;;
         printf "\n\t class: %hhu, subclass: %hhu, protocol: %hhu"
                [PInt (udi_class di); PInt (udi_subclass di); PInt (udi_protocol di)] ;;
         when (nonempty (udi_serial di))
           (let vs := strvis (udi_serial di) VIS_CSTYLE in
            printf ", iSerial %s" [PStr vs])) ;;
      printf "\n" [] ;;
      when (nonzero verbose)
        (for_range (Z.to_nat USB_MAX_DEVNAMES) 0 (fun i =>
           name <- aread (udi_devnames di) i ;;
           when (nonempty name) (printf "\t driver: %s\n" [PStr name]))) ;;
      when (1 <? verbose) (dump_ports di)
  end.

Definition print_device (addr : Z) : M unit :=
  r <- ioctl USB_DEVICE_GET_DDESC [addr] (device_ddesc sys addr) ;;
  match r with
  | IocErr errno => when (negb (errno =? ENXIO)) (warn "addr %u" [PInt addr])
  | IocOk dd =>
      printf ("addr %02u: max packet: %2u, num configs: %u, "
              ++ "iManufacturer: %hhu\n")%string
             [PInt addr; PInt (bMaxPacketSize dd); PInt (bNumConfigurations dd);
              PInt (iManufacturer dd)]
  end.

Definition print_config (addr config : Z) (quiet : bool) : M Z :=
  r <- ioctl USB_DEVICE_GET_CDESC [addr; config] (device_cdesc sys addr config) ;;
  match r with
  | IocErr errno =>
      when (negb (errno =? ENXIO)) (warn "addr %u" [PInt addr]) ;;
      ret 0
  | IocOk cd =>
      when (negb quiet)
        (printf ("addr %02u, config %02u: interfaces: %u, "
                 ++ "max-power: %umA")%string
                [PInt addr; PInt (bConfigurationValue cd); PInt (bNumInterfaces cd);
                 PInt (bMaxPower cd * UC_POWER_FACTOR)] ;;
         printf "\n\t attr 0x%02x:" [PInt (bmAttributes cd)] ;;
         when (nonzero (Z.land (bmAttributes cd) UC_BUS_POWERED)) (printf " bus-powered" []) ;;
         when (nonzero (Z.land (bmAttributes cd) UC_SELF_POWERED)) (printf " self-powered" []) ;;
         when (nonzero (Z.land (bmAttributes cd) UC_REMOTE_WAKEUP)) (printf " remote-wakeup" []) ;;
         puts "") ;;
      ret (wTotalLength cd mod 65536)
  end.

(** [fuel] bounds the walker's loop, see [walk]. *)
Definition print_full (fuel : nat) (addr config wtotlen : Z) : M unit :=
  ok <- malloc wtotlen ;;
  if negb ok then errx 1 "malloc"
  else
    r <- ioctl USB_DEVICE_GET_FDESC [addr; config; wtotlen]
               (device_fdesc sys addr config wtotlen) ;;
    match r with
    | IocErr errno => when (negb (errno =? ENXIO)) (warn "addr %u" [PInt addr])
    | IocOk data =>
        printf "addr %02u, " [PInt addr] ;;
        walk data fuel wtotlen 0 ;;
        ret tt
    end.

(** [for (addr = 1; addr < USB_MAX_DEVICES; addr++)]. *)
Definition for_each_addr (body : Z -> M unit) : M unit :=
  for_range (Z.to_nat (USB_MAX_DEVICES - 1)) 1 body.

Definition dump_controller (name : string) (addr : Z) : M unit :=
  memset_done ;;
  if nonzero addr then dump_device addr
  else
    printf "Controller %s:\n" [PStr name] ;;
    for_each_addr (fun a =>
      d <- get_done a ;;
      when (negb d) (dump_device a)).

Definition dump_device_desc (name : string) (addr : Z) : M unit :=
  if nonzero addr then print_device addr
  else
    printf "Controller %s:\n" [PStr name] ;;
    for_each_addr print_device.

Definition dump_config (name : string) (addr config : Z) : M unit :=
  if nonzero addr then print_config addr config false ;; ret tt
  else
    printf "Controller %s:\n" [PStr name] ;;
    for_each_addr (fun a => print_config a config false ;; ret tt).

Definition full_dump (fuel : nat) (name : string) (addr config : Z) : M unit :=
  if nonzero addr then
    wtotlen <- print_config addr config true ;;
    print_full fuel addr config wtotlen
  else
    printf "Controller %s:\n" [PStr name] ;;
    for_each_addr (fun a =>
      wtotlen <- print_config a config true ;;
      print_full fuel a config wtotlen).
End Program.



(** ** Runs that return

    [runs obs m s a s' d]: started in state [s], [m] returns [a] in state
    [s'] (it neither exits, nor reads out of bounds, nor hangs), and the
    events it produced are observed as [d] by [obs]. *)

Definition runs {X A : Type} (obs : event -> list X) (m : M A)
           (s : marks) (a : A) (s' : marks) (d : list X) : Prop :=
  exists t, m s = (t, Ret (a, s')) /\ flat_map obs t = d.

(** The indices [lo, lo+1, ..., lo+n-1] of a loop. *)
Fixpoint range (n : nat) (lo : Z) : list Z :=
  match n with
  | O => []
  | S n' => lo :: range n' (lo + 1)
  end.

(** The addresses [1 .. USB_MAX_DEVICES-1]. *)
Definition addresses : list Z := range (Z.to_nat (USB_MAX_DEVICES - 1)) 1.

(** [returns m s a]: [m] returns [a] and leaves the state [s] as it is. *)
Definition returns {A : Type} (m : M A) (s : marks) (a : A) : Prop :=
  exists t, m s = (t, Ret (a, s)).

(** ** Chains the walker gets through

    [extent tag len] is the number of bytes, counted from the cursor, that
    one round of the walker's loop reads of a sub-descriptor: the tag byte
    and the fixed fields of its renderer ([print_fconfig] reads offset 5,
    [print_iface] offsets 2 to 7, [print_endpt] offsets 2 to 6), or all
    [len] bytes for [print_unknown]. *)
Definition extent (tag len : Z) : Z :=
  if tag =? C_DESC then 6
  else if tag =? I_DESC then 8
  else if tag =? E_DESC then 7
  else Z.max 2 len.

(** [safe_chain buf cur]: from [cur] on, every sub-descriptor the length
    bytes lead to has a length byte that is not 0 and its [extent] inside
    the buffer.  The last one may declare a length that runs past the end. *)
Inductive safe_chain (buf : list Z) : Z -> Prop :=
| chain_end cur :
    Z.of_nat (List.length buf) <= cur -> safe_chain buf cur
| chain_next cur len tag :
    nth_error buf (Z.to_nat cur) = Some len ->
    nth_error buf (Z.to_nat (cur + 1)) = Some tag ->
    0 < len ->
    cur + extent tag len <= Z.of_nat (List.length buf) ->
    safe_chain buf (cur + len) ->
    safe_chain buf cur.

(** An interface sub-descriptor that declares 9 bytes in a buffer of 8, and
    a configuration, an interface and an endpoint sub-descriptor back to
    back. *)
Definition short_iface : list Z := [9; 4; 0; 0; 1; 3; 1; 1].
Definition config_chain : list Z :=
  [9; 2; 25; 0; 1; 1; 0; 128; 50;  9; 4; 0; 0; 1; 3; 1; 1; 0;  7; 5; 129; 3; 8; 0; 10].

(** [never_exits m]: no run of [m] ends in [exit]. *)
Definition never_exits {A : Type} (m : M A) : Prop :=
  forall s c, snd (m s) <> Exit c.

(** ** Sample systems *)

(** A controller with no device at any address. *)
Definition no_devices : system := {|
  deviceinfo := fun _ => IocErr ENXIO;
  device_ddesc := fun _ => IocErr ENXIO;
  device_cdesc := fun _ _ => IocErr ENXIO;
  device_fdesc := fun _ _ _ => IocErr ENXIO;
  malloc_ok := fun _ => true
|}.

(** A controller whose queries fail with EIO (5), and a system without
    memory. *)
Definition io_errors : system := {|
  deviceinfo := fun _ => IocErr 5;
  device_ddesc := fun _ => IocErr 5;
  device_cdesc := fun _ _ => IocErr 5;
  device_fdesc := fun _ _ _ => IocErr 5;
  malloc_ok := fun _ => true
|}.

Definition out_of_memory : system := {|
  deviceinfo := fun _ => IocErr ENXIO;
  device_ddesc := fun _ => IocErr ENXIO;
  device_cdesc := fun _ _ => IocErr ENXIO;
  device_fdesc := fun _ _ _ => IocErr ENXIO;
  malloc_ok := fun _ => false
|}.

(** ** What is observed of a run *)

(** The port number of a port line of [dump_device]. *)
Definition port_fmt : string := "\t port %02u: %04x.%04x".

Definition port_line (e : event) : list Z :=
  match e with
  | Printf fmt (PInt port :: _) => if String.eqb fmt port_fmt then [port] else []
  | _ => []
  end.

(** The queries, the device reports (the summary line of [dump_device]) and
    the warnings of a run, each with its address. *)
Inductive observation : Type := Queried | Reported | Warned.

Definition summary_fmt : string := "addr %02u: %04x:%04x %s, %s, usb_bus: %hhu".

Definition observe (e : event) : list (observation * Z) :=
  match e with
  | Ioctl _ (addr :: _) => [(Queried, addr)]
  | Printf fmt (PInt addr :: _) =>
      if String.eqb fmt summary_fmt then [(Reported, addr)] else []
  | Warn _ (PInt addr :: _) => [(Warned, addr)]
  | _ => []
  end.

(** What the live-info query of one address is to show: the query, then a
    report if a device answered, a warning if the query failed with an error
    other than ENXIO, and nothing more if it failed with ENXIO. *)
Definition expected (sys : system) (addr : Z) : list (observation * Z) :=
  (Queried, addr)
  :: match deviceinfo sys addr with
     | IocOk _ => [(Reported, addr)]
     | IocErr errno => if errno =? ENXIO then [] else [(Warned, addr)]
     end.

(** The records the kernel fills in have [USB_MAX_DEVNAMES] driver names. *)
Definition well_formed (sys : system) : Prop :=
  forall addr di,
    deviceinfo sys addr = IocOk di ->
    List.length (udi_devnames di) = Z.to_nat USB_MAX_DEVNAMES.

(** A controller with a hub at address 3 and a keyboard at address 7, and
    nothing at the other addresses. *)
Definition hub : usb_device_info := {|
  udi_bus := 0; udi_vendorNo := 1507; udi_productNo := 1544; udi_releaseNo := 256;
  udi_vendor := "Genesys Logic"; udi_product := "USB2.0 Hub"; udi_release := "1.00";
  udi_serial := ""; udi_speed := USB_SPEED_HIGH; udi_power := 100; udi_config := 1;
  udi_class := 9; udi_subclass := 0; udi_protocol := 1;
  udi_devnames := ["uhub1"; ""; ""; ""];
  udi_nports := 4;
  udi_ports := [259; 256; 256; 65795; 0; 0; 0; 0; 0; 0; 0; 0; 0; 0; 0; 0]
|}.

Definition keyboard : usb_device_info := {|
  udi_bus := 0; udi_vendorNo := 1133; udi_productNo := 49948; udi_releaseNo := 16384;
  udi_vendor := "Logitech"; udi_product := "USB Keyboard"; udi_release := "64.00";
  udi_serial := "0001"; udi_speed := USB_SPEED_LOW; udi_power := 90; udi_config := 1;
  udi_class := 0; udi_subclass := 0; udi_protocol := 0;
  udi_devnames := ["uhidev0"; "uhidev1"; ""; ""];
  udi_nports := 0;
  udi_ports := [0; 0; 0; 0; 0; 0; 0; 0; 0; 0; 0; 0; 0; 0; 0; 0]
|}.

Definition two_devices : system := {|
  deviceinfo := fun addr =>
    if addr =? 3 then IocOk hub
    else if addr =? 7 then IocOk keyboard
    else IocErr ENXIO;
  device_ddesc := fun _ => IocErr ENXIO;
  device_cdesc := fun _ _ => IocErr ENXIO;
  device_fdesc := fun _ _ _ => IocErr ENXIO;
  malloc_ok := fun _ => true
|}.

(** ** Strings *)

Fixpoint string_forall (p : ascii -> bool) (s : string) : bool :=
  match s with
  | EmptyString => true
  | String c r => p c && string_forall p r
  end.

(** The content of a C string has no NUL. *)
Definition no_nul (s : string) : bool := string_forall (fun c => nonzero (code c)) s.

(** A raw control byte, and what [strvis] with [VIS_CSTYLE] lets through:
    printable ASCII, tab and newline. *)
Definition raw_control (c : ascii) : bool := iscntrl (code c).
Definition printable (c : ascii) : bool := (32 <=? code c) && (code c <=? 126).
Definition passes (c : ascii) : bool :=
  printable c || (code c =? 9) || (code c =? 10).

(** A device whose vendor string has two lines. *)
Definition two_lines : string := String "A" (String (chr 10) (String "B" EmptyString)).

Definition two_line_device : system := {|
  deviceinfo := fun _ =>
    IocOk {| udi_bus := 0; udi_vendorNo := 1; udi_productNo := 2; udi_releaseNo := 256;
             udi_vendor := two_lines; udi_product := "P"; udi_release := "1.00";
             udi_serial := ""; udi_speed := USB_SPEED_FULL; udi_power := 0;
             udi_config := 1; udi_class := 0; udi_subclass := 0; udi_protocol := 0;
             udi_devnames := [""; ""; ""; ""]; udi_nports := 0; udi_ports := [] |};
  device_ddesc := fun _ => IocErr ENXIO;
  device_cdesc := fun _ _ => IocErr ENXIO;
  device_fdesc := fun _ _ _ => IocErr ENXIO;
  malloc_ok := fun _ => true
|}.

(** ** Observers of the other decoders *)

(** As [observe], for a decoder whose report line has the format [report]. *)
Definition observe_with (report : string) (e : event) : list (observation * Z) :=
  match e with
  | Ioctl _ (addr :: _) => [(Queried, addr)]
  | Printf fmt (PInt addr :: _) =>
      if String.eqb fmt report then [(Reported, addr)] else []
  | Warn _ (PInt addr :: _) => [(Warned, addr)]
  | _ => []
  end.

(** As [expected], for the answer of any of the queries. *)
Definition expected_of {A : Type} (answer : ioc A) (addr : Z) : list (observation * Z) :=
  (Queried, addr)
  :: match answer with
     | IocOk _ => [(Reported, addr)]
     | IocErr errno => if errno =? ENXIO then [] else [(Warned, addr)]
     end.

Definition ddesc_fmt : string :=
  "addr %02u: max packet: %2u, num configs: %u, iManufacturer: %hhu\n".
Definition cdesc_fmt : string :=
  "addr %02u, config %02u: interfaces: %u, max-power: %umA".

(** What goes to standard output. *)
Definition is_stdout (e : event) : bool :=
  match e with
  | Printf _ _ | Puts _ => true
  | _ => false
  end.

(** The byte of a hex-dump item of [print_unknown], and the name of a
    driver line of [dump_device]. *)
Definition hex_byte (e : event) : list Z :=
  match e with
  | Printf fmt [PInt b] => if String.eqb fmt "0x%02x " then [b] else []
  | _ => []
  end.

Definition driver_line (e : event) : list string :=
  match e with
  | Printf fmt [PStr name] => if String.eqb fmt "\t driver: %s\n" then [name] else []
  | _ => []
  end.

(** The bytes of a buffer are in 0..255. *)
Definition bytes (buf : list Z) : Prop := Forall (fun b => 0 <= b < 256) buf.

(** Text that [strvis] has nothing to do on: graphic ASCII other than the
    backslash, space, tab and newline. *)
Definition plain (c : ascii) : bool :=
  (isgraph (code c) && negb (code c =? 92))
  || (code c =? 32) || (code c =? 9) || (code c =? 10).

(** A device that answers every query, with [config_chain] as the full
    descriptor of its configuration. *)
Definition one_config : system := {|
  deviceinfo := fun _ => IocOk keyboard;
  device_ddesc := fun _ =>
    IocOk {| bMaxPacketSize := 8; bNumConfigurations := 1; iManufacturer := 1 |};
  device_cdesc := fun _ _ =>
    IocOk {| bConfigurationValue := 1; bNumInterfaces := 1; bMaxPower := 50;
             bmAttributes := 160; wTotalLength := 25 |};
  device_fdesc := fun _ _ _ => IocOk config_chain;
  malloc_ok := fun _ => true
|}.

(** * Properties *)

(** ** The logic of runs *)

Section Runs.
Context {X : Type} (obs : event -> list X).

Lemma runs_ret {A : Type} (a : A) s : runs obs (ret a) s a s [].
Proof. exists []. split; reflexivity. Qed.

Lemma runs_bind {A B : Type} (m : M A) (f : A -> M B) s a s1 d1 b s2 d2 :
  runs obs m s a s1 d1 -> runs obs (f a) s1 b s2 d2 ->
  runs obs (bind m f) s b s2 (d1 ++ d2).
Proof.
  intros (t1 & E1 & D1) (t2 & E2 & D2). exists (t1 ++ t2). split.
  - unfold bind. rewrite E1, E2. reflexivity.
  - rewrite flat_map_app, D1, D2. reflexivity.
Qed.

Lemma runs_emit e s : runs obs (emit e) s tt s (obs e).
Proof. exists [e]. split; [reflexivity | simpl; apply app_nil_r]. Qed.

Lemma runs_when (c : bool) m s d :
  (c = true -> runs obs m s tt s d) -> (c = false -> d = []) ->
  runs obs (when c m) s tt s d.
Proof.
  destruct c; simpl; intros Ht Hf.
  - apply Ht; reflexivity.
  - rewrite Hf by reflexivity. apply runs_ret.
Qed.

Lemma runs_aread {A : Type} (arr : list A) i x s :
  0 <= i -> nth_error arr (Z.to_nat i) = Some x -> runs obs (aread arr i) s x s [].
Proof.
  intros Hi Hx. unfold aread.
  destruct (i <? 0) eqn:E; [apply Z.ltb_lt in E; lia |].
  rewrite Hx. apply runs_ret.
Qed.

Lemma bind_run {A B : Type} (m : M A) (f : A -> M B) s t a s1 :
  m s = (t, Ret (a, s1)) -> bind m f s = (let (t', o) := f a s1 in (t ++ t', o)).
Proof. unfold bind. intros ->. reflexivity. Qed.

(** A loop whose body keeps an invariant [I] of the state. *)
Lemma runs_for_range (I : Z -> marks -> Prop) (g : Z -> list X) body n :
  forall lo s,
    (forall i s0, lo <= i < lo + Z.of_nat n -> I i s0 ->
                  exists s1, runs obs (body i) s0 tt s1 (g i) /\ I (i + 1) s1) ->
    I lo s ->
    exists s', runs obs (for_range n lo body) s tt s' (flat_map g (range n lo))
               /\ I (lo + Z.of_nat n) s'.
Proof.
  induction n as [| n IH]; intros lo s Hbody HI.
  - exists s. split; [apply runs_ret | now replace (lo + Z.of_nat 0) with lo by lia].
  - destruct (Hbody lo s) as (s1 & R1 & I1); [lia | assumption |].
    destruct (IH (lo + 1) s1) as (s2 & R2 & I2).
    + intros i s0 Hi. apply Hbody. lia.
    + assumption.
    + exists s2. split.
      * simpl. eapply runs_bind; eassumption.
      * now replace (lo + Z.of_nat (S n)) with (lo + 1 + Z.of_nat n) by lia.
Qed.

(** A loop whose body leaves the state alone. *)
Lemma runs_for_range_pure (g : Z -> list X) body n lo s :
  (forall i, lo <= i < lo + Z.of_nat n -> runs obs (body i) s tt s (g i)) ->
  runs obs (for_range n lo body) s tt s (flat_map g (range n lo)).
Proof.
  intros Hbody.
  destruct (runs_for_range (fun _ s0 => s0 = s) g body n lo s) as (s' & R & ->).
  - intros i s0 Hi ->. exists s. split; [now apply Hbody | reflexivity].
  - reflexivity.
  - assumption.
Qed.
End Runs.

Lemma range_length n lo : List.length (range n lo) = n.
Proof. revert lo; induction n; simpl; intros; [reflexivity | now rewrite IHn]. Qed.

Lemma range_In n lo i : In i (range n lo) <-> lo <= i < lo + Z.of_nat n.
Proof.
  revert lo; induction n; intros lo; simpl.
  - split; [tauto | lia].
  - rewrite IHn. lia.
Qed.

(** ** Endpoint renderer *)

Lemma land_12_not_small attr k : k = 1 \/ k = 2 \/ k = 3 -> Z.land attr 12 <> k.
Proof.
  intros [-> | [-> | ->]] H.
  - apply (f_equal (fun z => Z.testbit z 0)) in H.
    rewrite Z.land_spec in H; simpl in H; rewrite andb_false_r in H; discriminate.
  - apply (f_equal (fun z => Z.testbit z 1)) in H.
    rewrite Z.land_spec in H; simpl in H; rewrite andb_false_r in H; discriminate.
  - apply (f_equal (fun z => Z.testbit z 0)) in H.
    rewrite Z.land_spec in H; simpl in H; rewrite andb_false_r in H; discriminate.
Qed.

(** C4 (code defect).  The inner switch of [print_endpt] tests the masked
    but unshifted value [attr & 0xC], which is 0, 4, 8 or 12: its cases 1, 2
    and 3 are never taken.  Whatever the attributes byte, the only
    synchronization label ever rendered is the one of field value 0; for the
    values async, adaptive and sync nothing is rendered. *)
Theorem sync_type_renders_only_none :
  forall attr s,
    sync_type attr s
    = (if Z.land attr 12 =? 0 then [Printf "none, " []] else [], Ret (tt, s)).
Proof.
  intros attr s. unfold sync_type.
  destruct (Z.land attr 12 =? 0) eqn:E0; [reflexivity |].
  destruct (Z.land attr 12 =? 1) eqn:E1;
    [apply Z.eqb_eq in E1; exfalso; revert E1; apply land_12_not_small; auto |].
  destruct (Z.land attr 12 =? 2) eqn:E2;
    [apply Z.eqb_eq in E2; exfalso; revert E2; apply land_12_not_small; auto |].
  destruct (Z.land attr 12 =? 3) eqn:E3;
    [apply Z.eqb_eq in E3; exfalso; revert E3; apply land_12_not_small; auto |].
  reflexivity.
Qed.

(** The same at the isochronous endpoints of the three other
    synchronization types (attributes 0x05, 0x09 and 0x0d): the line has no
    label after "sync_type: ". *)
Example print_endpt_isochronous_async :
  forall attr, In attr [5; 9; 13] ->
    print_endpt [7; 5; 129; attr; 0; 4; 1] 0 []
    = ([Printf "\t \t endpt_addr: %02u, dir: %s, " [PInt 1; PStr "in"];
        Printf "isochronous, " []; Printf "sync_type: " [];
        Printf "max_packet: %u, polling_interval: %02u\n" [PInt 1024; PInt 1]],
       Ret (tt, [])).
Proof. intros attr [<- | [<- | [<- | []]]]; reflexivity. Qed.

Lemma land_lxor_128_low b k : 0 <= k <= 7 -> Z.land (Z.lxor b 128) (Z.ones k) = Z.land b (Z.ones k).
Proof.
  intros Hk. apply Z.bits_inj'. intros n Hn.
  rewrite !Z.land_spec, Z.lxor_spec.
  destruct (Z.ltb_spec n k) as [Hlt | Hge].
  - replace (Z.testbit 128 n) with false; [now rewrite xorb_false_r |].
    change 128 with (2 ^ 7). rewrite Z.pow2_bits_false; [reflexivity | lia].
  - rewrite Z.ones_spec_high by lia. now rewrite !andb_false_r.
Qed.

(** C5 (code defect).  The direction is taken from [addr & 0x7], the low
    three bits, not from the direction bit 0x80: flipping the direction bit
    of the endpoint-address byte never changes the rendered direction. *)
Theorem endpt_dir_ignores_direction_bit :
  forall b, endpt_dir (Z.lxor b 128) = endpt_dir b.
Proof.
  intros b. unfold endpt_dir.
  change 7 with (Z.ones 3). now rewrite land_lxor_128_low by lia.
Qed.

(** Endpoint 1 OUT (0x01) and endpoint 1 IN (0x81) both render "in",
    endpoint 0 IN (0x80) renders "out", and endpoint 4 renders as 0. *)
Example print_endpt_direction :
  endpt_dir 1 = "in" /\ endpt_dir 129 = "in" /\ endpt_dir 128 = "out"
  /\ fst (print_endpt [7; 5; 4; 2; 64; 0; 0] 0 [])
     = [Printf "\t \t endpt_addr: %02u, dir: %s, " [PInt 0; PStr "in"];
        Printf "bulk, " [];
        Printf "max_packet: %u, polling_interval: %02u\n" [PInt 64; PInt 0]].
Proof. repeat split. Qed.

(** ** Chained-descriptor walker *)

Lemma walk_unfold buf fuel wtotlen cur :
  walk buf (S fuel) wtotlen cur
  = if cur <? wtotlen then
      dispatch buf cur ;;
      len <- aread buf cur ;;
      rest <- walk buf fuel wtotlen (cur + len) ;;
      ret (cur :: rest)
    else ret [].
Proof. reflexivity. Qed.

(** A walk that starts at or past the end visits nothing. *)
Lemma walk_past_end buf fuel wtotlen cur s :
  wtotlen <= cur -> walk buf fuel wtotlen cur s = ([], Ret ([], s)).
Proof.
  intros H. destruct fuel; simpl;
    (destruct (cur <? wtotlen) eqn:E; [apply Z.ltb_lt in E; lia | reflexivity]).
Qed.

(** A cursor inside the buffer whose length byte is 0 is never left: the
    walk does not return, whatever the fuel. *)
Lemma walk_zero_length_never_returns buf wtotlen cur :
  cur < wtotlen -> 0 <= cur -> nth_error buf (Z.to_nat cur) = Some 0 ->
  forall fuel s t r, walk buf fuel wtotlen cur s <> (t, Ret r).
Proof.
  intros Hlt Hcur Hlen fuel.
  induction fuel as [| fuel IH]; intros s t r.
  - simpl. apply Z.ltb_lt in Hlt. rewrite Hlt. discriminate.
  - rewrite walk_unfold. apply Z.ltb_lt in Hlt. rewrite Hlt.
    unfold bind at 1.
    destruct (dispatch buf cur s) as [t1 [[[] s1] | c | off |]]; try discriminate.
    unfold bind at 1. unfold aread.
    destruct (cur <? 0) eqn:E; [apply Z.ltb_lt in E; lia |].
    rewrite Hlen. unfold ret at 1. replace (cur + 0) with cur by lia.
    unfold bind at 1.
    destruct (walk buf fuel wtotlen cur s1) as [t2 [[cs s2] | c | off |]] eqn:W;
      try discriminate.
    exfalso. exact (IH s1 t2 (cs, s2) W).
Qed.

(** C1 (code defect).  The loop of [print_full] advances by [cur += *cur]
    and has no test of the length byte.  On the six-byte buffer
    [00 02 00 00 00 01], whose first byte is 0, the walk never leaves offset
    0: with any fuel [n] it has decoded the same sub-descriptor [n] times and
    is still running. *)
Theorem walker_zero_length_hangs :
  forall fuel,
    walker fuel [0; 2; 0; 0; 0; 1]
    = (repeat (Printf "config %02u:\n" [PInt 1]) fuel, Hang).
Proof.
  unfold walker. simpl (Z.of_nat _).
  induction fuel as [| fuel IH]; [reflexivity |].
  rewrite walk_unfold. change (0 <? 6) with true. cbv iota.
  rewrite (bind_run _ _ _ [Printf "config %02u:\n" [PInt 1]] tt []) by reflexivity.
  rewrite (bind_run _ _ _ [] 0 []) by reflexivity.
  change (0 + 0) with 0. unfold bind. rewrite IH. reflexivity.
Qed.

(** *** Runs that leave the state alone *)

Lemma returns_ret {A : Type} (a : A) s : returns (ret a) s a.
Proof. exists []. reflexivity. Qed.

Lemma returns_bind {A B : Type} (m : M A) (f : A -> M B) s a b :
  returns m s a -> returns (f a) s b -> returns (bind m f) s b.
Proof.
  intros [t1 E1] [t2 E2]. exists (t1 ++ t2). unfold bind. now rewrite E1, E2.
Qed.

Lemma returns_bind_ex {A B : Type} (m : M A) (f : A -> M B) s b :
  (exists a, returns m s a) -> (forall a, returns (f a) s b) -> returns (bind m f) s b.
Proof. intros [a Ha] Hf. eapply returns_bind; [exact Ha | apply Hf]. Qed.

Lemma returns_emit e s : returns (emit e) s tt.
Proof. exists [e]. reflexivity. Qed.

Lemma returns_printf fmt args s : returns (printf fmt args) s tt.
Proof. apply returns_emit. Qed.

Lemma returns_when (c : bool) m s : (c = true -> returns m s tt) -> returns (when c m) s tt.
Proof. destruct c; simpl; intros H; [now apply H | apply returns_ret]. Qed.

Lemma nth_error_in_bounds {A : Type} (l : list A) i :
  0 <= i < Z.of_nat (List.length l) -> exists x, nth_error l (Z.to_nat i) = Some x.
Proof.
  intros Hi. destruct (nth_error l (Z.to_nat i)) as [x |] eqn:E; [now exists x |].
  apply nth_error_None in E. lia.
Qed.

Lemma aread_run {A : Type} (l : list A) i x s :
  0 <= i -> nth_error l (Z.to_nat i) = Some x -> aread l i s = ([], Ret (x, s)).
Proof.
  intros Hi Hx. unfold aread.
  destruct (i <? 0) eqn:E; [apply Z.ltb_lt in E; lia |]. now rewrite Hx.
Qed.

Lemma aread_oob {A : Type} (l : list A) i s :
  Z.of_nat (List.length l) <= i -> aread l i s = ([], Oob i).
Proof.
  intros Hi. unfold aread.
  destruct (i <? 0) eqn:E; [reflexivity |].
  replace (nth_error l (Z.to_nat i)) with (@None A); [reflexivity |].
  symmetry. apply nth_error_None. lia.
Qed.

(** Every value [aread] returns was read inside the array. *)
Lemma aread_ret_in_bounds {A : Type} (l : list A) i s t x s' :
  aread l i s = (t, Ret (x, s')) -> 0 <= i < Z.of_nat (List.length l).
Proof.
  unfold aread. destruct (i <? 0) eqn:E; [discriminate |].
  apply Z.ltb_ge in E.
  destruct (nth_error l (Z.to_nat i)) eqn:N; [| discriminate].
  intros _. assert (Z.to_nat i < List.length l)%nat by (apply nth_error_Some; congruence).
  lia.
Qed.

(** A read inside the array followed by [f]. *)
Lemma returns_read {A B : Type} (l : list A) i (f : A -> M B) s b :
  0 <= i < Z.of_nat (List.length l) ->
  (forall x, returns (f x) s b) -> returns (bind (aread l i) f) s b.
Proof.
  intros Hi Hf. destruct (nth_error_in_bounds l i Hi) as [x Hx].
  eapply returns_bind; [| apply Hf].
  exists []. apply aread_run; [lia | exact Hx].
Qed.

Lemma returns_for_range body n lo s :
  (forall i, lo <= i < lo + Z.of_nat n -> returns (body i) s tt) ->
  returns (for_range n lo body) s tt.
Proof.
  revert lo. induction n as [| n IH]; intros lo H; simpl.
  - apply returns_ret.
  - eapply returns_bind; [apply H; lia |]. apply IH. intros i Hi. apply H. lia.
Qed.

Ltac read_in_bounds := apply returns_read; [lia | intros ?].

Lemma sync_type_returns attr s : returns (sync_type attr) s tt.
Proof.
  unfold sync_type.
  repeat match goal with |- context [if ?c then _ else _] => destruct c end;
    first [apply returns_printf | apply returns_ret].
Qed.

Lemma transfer_type_returns attr s : returns (transfer_type attr) s tt.
Proof.
  unfold transfer_type.
  repeat match goal with |- context [if ?c then _ else _] => destruct c end;
    try first [apply returns_printf | apply returns_ret].
  eapply returns_bind; [apply returns_printf |].
  eapply returns_bind; [apply returns_printf |]. apply sync_type_returns.
Qed.

Section WalkerSafety.
Variable buf : list Z.

Lemma print_fconfig_returns cur s :
  0 <= cur -> cur + 6 <= Z.of_nat (List.length buf) -> returns (print_fconfig buf cur) s tt.
Proof. intros H0 H. unfold print_fconfig. read_in_bounds. apply returns_printf. Qed.

Lemma print_iface_returns cur s :
  0 <= cur -> cur + 8 <= Z.of_nat (List.length buf) -> returns (print_iface buf cur) s tt.
Proof.
  intros H0 H. unfold print_iface. do 6 read_in_bounds. apply returns_printf.
Qed.

Lemma UGETW_returns cur s :
  0 <= cur -> cur + 2 <= Z.of_nat (List.length buf) -> exists w, returns (UGETW buf cur) s w.
Proof.
  intros H0 H. unfold UGETW.
  destruct (nth_error_in_bounds buf cur ltac:(lia)) as [lo Hlo].
  destruct (nth_error_in_bounds buf (cur + 1) ltac:(lia)) as [hi Hhi].
  exists (Z.lor lo (Z.shiftl hi 8)).
  eapply returns_bind; [exists []; apply aread_run; [lia | exact Hlo] |].
  eapply returns_bind; [exists []; apply aread_run; [lia | exact Hhi] |].
  apply returns_ret.
Qed.

Lemma print_endpt_returns cur s :
  0 <= cur -> cur + 7 <= Z.of_nat (List.length buf) -> returns (print_endpt buf cur) s tt.
Proof.
  intros H0 H. unfold print_endpt. read_in_bounds.
  eapply returns_bind; [apply returns_printf |]. read_in_bounds.
  eapply returns_bind; [apply transfer_type_returns |].
  apply returns_bind_ex; [apply UGETW_returns; lia | intros w].
  read_in_bounds. apply returns_printf.
Qed.

Lemma print_unknown_returns cur len s :
  0 <= cur -> nth_error buf (Z.to_nat cur) = Some len ->
  cur + Z.max 2 len <= Z.of_nat (List.length buf) -> returns (print_unknown buf cur) s tt.
Proof.
  intros H0 Hlen H. unfold print_unknown. read_in_bounds.
  eapply returns_bind; [apply returns_printf |].
  eapply returns_bind; [exists []; apply aread_run; [lia | exact Hlen] |].
  eapply returns_bind; [| apply returns_printf].
  apply returns_for_range. intros i Hi.
  eapply returns_bind; [apply returns_when; intros _; apply returns_printf |].
  read_in_bounds. apply returns_printf.
Qed.

Lemma dispatch_returns cur len tag s :
  0 <= cur ->
  nth_error buf (Z.to_nat cur) = Some len ->
  nth_error buf (Z.to_nat (cur + 1)) = Some tag ->
  cur + extent tag len <= Z.of_nat (List.length buf) ->
  returns (dispatch buf cur) s tt.
Proof.
  intros H0 Hlen Htag H. unfold dispatch.
  eapply returns_bind; [exists []; apply aread_run; [lia | exact Htag] |].
  unfold extent in H.
  destruct (tag =? C_DESC); [apply print_fconfig_returns; lia |].
  destruct (tag =? I_DESC); [apply print_iface_returns; lia |].
  destruct (tag =? E_DESC); [apply print_endpt_returns; lia |].
  eapply print_unknown_returns; eauto.
Qed.

Lemma walk_safe_chain cur :
  safe_chain buf cur -> 0 <= cur ->
  forall fuel s, Z.of_nat (List.length buf) - cur <= Z.of_nat fuel ->
    exists out cursors,
      walk buf fuel (Z.of_nat (List.length buf)) cur s = (out, Ret (cursors, s))
      /\ Z.of_nat (List.length cursors) <= Z.max 0 (Z.of_nat (List.length buf) - cur)
      /\ Forall (fun c => cur <= c < Z.of_nat (List.length buf)) cursors.
Proof.
  induction 1 as [cur Hend | cur len tag Hlen Htag Hpos Hext Hrest IH];
    intros H0 fuel s Hfuel.
  - exists [], []. rewrite walk_past_end by lia.
    repeat split; [simpl; lia | constructor].
  - assert (Hcur : cur < Z.of_nat (List.length buf)).
    { assert (Z.to_nat cur < List.length buf)%nat by (apply nth_error_Some; congruence).
      lia. }
    destruct fuel as [| fuel]; [lia |].
    destruct (dispatch_returns cur len tag s H0 Hlen Htag Hext) as [t1 E1].
    destruct (IH ltac:(lia) fuel s ltac:(lia)) as (t2 & cs & E2 & Hcs & Hall).
    exists (t1 ++ [] ++ t2 ++ []), (cur :: cs).
    split; [| split].
    + rewrite walk_unfold. apply Z.ltb_lt in Hcur. rewrite Hcur.
      rewrite (bind_run _ _ _ _ _ _ E1).
      rewrite (bind_run _ _ _ _ _ _ (aread_run buf cur len s H0 Hlen)).
      rewrite (bind_run _ _ _ _ _ _ E2). reflexivity.
    + simpl List.length. lia.
    + constructor; [lia |].
      eapply Forall_impl; [| exact Hall]. simpl. intros c Hc. lia.
Qed.
End WalkerSafety.

(** C2, as amended.  For every buffer of length N in which the length
    bytes lead from offset 0 through sub-descriptors that each have a
    non-zero length byte and keep the bytes their renderer reads below N
    ([safe_chain]), the walk over it returns: it ends neither in a read at
    offset N or beyond nor without end, it visits at most N sub-descriptors,
    and every cursor it visits is below N.  A last sub-descriptor of a known
    tag may declare a length that runs past the end: the walk stops after
    it. *)
Theorem walker_safe_chain :
  forall buf,
    safe_chain buf 0 ->
    exists out cursors,
      walker (List.length buf) buf = (out, Ret (cursors, []))
      /\ (List.length cursors <= List.length buf)%nat
      /\ Forall (fun c => 0 <= c < Z.of_nat (List.length buf)) cursors.
Proof.
  intros buf H.
  destruct (walk_safe_chain buf 0 H ltac:(lia) (List.length buf) [] ltac:(lia))
    as (out & cs & E & Hlen & Hall).
  exists out, cs. repeat split; [exact E | lia | exact Hall].
Qed.

Lemma short_iface_safe : safe_chain short_iface 0.
Proof.
  unfold short_iface.
  eapply chain_next; [reflexivity | reflexivity | lia | unfold extent; simpl; lia |].
  apply chain_end. simpl. lia.
Defined.

Lemma walker_safe_chain_witness :
  safe_chain short_iface 0
  /\ exists out cursors,
       walker (List.length short_iface) short_iface = (out, Ret (cursors, []))
       /\ (List.length cursors <= List.length short_iface)%nat
       /\ Forall (fun c => 0 <= c < Z.of_nat (List.length short_iface)) cursors.
Proof.
  split; [exact short_iface_safe | exact (walker_safe_chain short_iface short_iface_safe)].
Defined.

(** C2 as stated fails.  In the three-byte buffer [03 02 00] the only
    sub-descriptor lies inside the buffer, yet [print_fconfig] reads offset
    5; in [02 09 04 09 01] the last sub-descriptor declares 4 bytes where 3
    are left, and [print_unknown] reads offset 5; in the one-byte buffer
    [05] the tag is read at offset 1. *)
Lemma walker_reads_past_end :
  walker 3 [3; 2; 0] = ([], Oob 5)
  /\ walker 5 [2; 9; 4; 9; 1]
     = ([Printf "\t unknown: %02u" [PInt 9]; Printf "\n\t " [];
         Printf "0x%02x " [PInt 2]; Printf "0x%02x " [PInt 9]; Printf "\n" [];
         Printf "\t unknown: %02u" [PInt 9]; Printf "\n\t " [];
         Printf "0x%02x " [PInt 4]; Printf "0x%02x " [PInt 9];
         Printf "0x%02x " [PInt 1]], Oob 5)
  /\ walker 1 [5] = ([], Oob 1).
Proof. repeat split. Qed.

Example walker_config_chain :
  snd (walker (List.length config_chain) config_chain) = Ret ([0; 9; 18], []).
Proof. reflexivity. Qed.

(** ** Full-descriptor decode with a total length of 0 *)

(** C3 as stated fails.  With no device at address 1 the quiet
    configuration decode returns 0, and [full_dump] still calls [print_full]:
    a [malloc] of 0 bytes and the full-descriptor [ioctl] are issued. *)
Lemma full_dump_zero_length_fetches :
  print_config no_devices 1 0 true []
  = ([Ioctl USB_DEVICE_GET_CDESC [1; 0]], Ret (0, []))
  /\ full_dump no_devices 0 "/dev/usb0" 1 0 []
     = ([Ioctl USB_DEVICE_GET_CDESC [1; 0]; Malloc 0;
         Ioctl USB_DEVICE_GET_FDESC [1; 0; 0]], Ret (tt, [])).
Proof. split; reflexivity. Qed.

(** C3, as amended.  When the quiet configuration decode of an address
    returns 0, [full_dump] goes on to [print_full] with that size: it asks
    [malloc] for 0 bytes and exits if that fails, otherwise it issues the
    full-descriptor [ioctl] with size 0; on its failure it warns unless the
    error is ENXIO, on its success it prints the address.  In no case is a
    sub-descriptor decoded: the walker's loop body does not run. *)
Theorem full_dump_zero_length :
  forall sys fuel name addr config s t s',
    addr <> 0 ->
    print_config sys addr config true s = (t, Ret (0, s')) ->
    full_dump sys fuel name addr config s
    = if malloc_ok sys 0 then
        match device_fdesc sys addr config 0 with
        | IocOk _ =>
            (t ++ [Malloc 0; Ioctl USB_DEVICE_GET_FDESC [addr; config; 0];
                   Printf "addr %02u, " [PInt addr]], Ret (tt, s'))
        | IocErr errno =>
            (t ++ [Malloc 0; Ioctl USB_DEVICE_GET_FDESC [addr; config; 0]]
               ++ (if errno =? ENXIO then [] else [Warn "addr %u" [PInt addr]]),
             Ret (tt, s'))
        end
      else (t ++ [Malloc 0; Errx "malloc"], Exit 1).
Proof.
  intros sys fuel name addr config s t s' Haddr Hcfg.
  unfold full_dump, nonzero.
  destruct (addr =? 0) eqn:E; [apply Z.eqb_eq in E; contradiction |].
  change (negb false) with true. cbv iota.
  rewrite (bind_run _ _ _ _ _ _ Hcfg).
  unfold print_full, bind, malloc, ioctl.
  destruct (malloc_ok sys 0); simpl; [| reflexivity].
  destruct (device_fdesc sys addr config 0) as [data | errno]; simpl.
  - rewrite walk_past_end by lia. reflexivity.
  - destruct (errno =? ENXIO); reflexivity.
Qed.

Lemma full_dump_zero_length_witness :
  1 <> 0
  /\ print_config no_devices 1 0 true [] = ([Ioctl USB_DEVICE_GET_CDESC [1; 0]], Ret (0, []))
  /\ full_dump no_devices 5 "/dev/usb0" 1 0 []
     = ([Ioctl USB_DEVICE_GET_CDESC [1; 0]]
          ++ [Malloc 0; Ioctl USB_DEVICE_GET_FDESC [1; 0; 0]] ++ [], Ret (tt, [])).
Proof.
  split; [lia |]. split; [reflexivity |].
  exact (full_dump_zero_length no_devices 5 "/dev/usb0" 1 0 []
           [Ioctl USB_DEVICE_GET_CDESC [1; 0]] []
           ltac:(lia) eq_refl).
Defined.

(** ** Failures of a query *)

Lemma never_exits_ret {A : Type} (a : A) : never_exits (ret a).
Proof. intros s c. discriminate. Qed.

Lemma never_exits_emit e : never_exits (emit e).
Proof. intros s c. discriminate. Qed.

Lemma never_exits_printf fmt args : never_exits (printf fmt args).
Proof. apply never_exits_emit. Qed.

Lemma never_exits_bind {A B : Type} (m : M A) (f : A -> M B) :
  never_exits m -> (forall a, never_exits (f a)) -> never_exits (bind m f).
Proof.
  intros Hm Hf s c. unfold bind.
  specialize (Hm s). destruct (m s) as [t [[a s1] | c1 | off |]]; simpl in *.
  - specialize (Hf a s1 c). destruct (f a s1) as [t' o]. exact Hf.
  - exfalso. exact (Hm c1 eq_refl).
  - discriminate.
  - discriminate.
Qed.

Lemma never_exits_when c m : never_exits m -> never_exits (when c m).
Proof. destruct c; simpl; [auto | intros _; apply never_exits_ret]. Qed.

Lemma never_exits_aread {A : Type} (l : list A) i : never_exits (aread l i).
Proof.
  intros s c. unfold aread.
  destruct (i <? 0); [discriminate |].
  destruct (nth_error l (Z.to_nat i)); discriminate.
Qed.

Lemma never_exits_for_range body n :
  (forall i, never_exits (body i)) -> forall lo, never_exits (for_range n lo body).
Proof.
  intros H. induction n as [| n IH]; intros lo; simpl.
  - apply never_exits_ret.
  - apply never_exits_bind; [apply H | intros _; apply IH].
Qed.

Lemma never_exits_set_done addr : never_exits (set_done addr).
Proof.
  intros s c. unfold set_done.
  destruct (addr <? 0); [discriminate |].
  destruct (mark s (Z.to_nat addr)); discriminate.
Qed.

Lemma never_exits_ioctl {A : Type} req args (answer : ioc A) :
  never_exits (ioctl req args answer).
Proof. intros s c. discriminate. Qed.

Ltac never_exits :=
  repeat first
    [ apply never_exits_ret
    | apply never_exits_printf
    | apply never_exits_emit
    | apply never_exits_aread
    | apply never_exits_set_done
    | apply never_exits_ioctl
    | apply never_exits_when
    | apply never_exits_for_range; intros ?
    | apply never_exits_bind; [| intros ?]
    | match goal with
      | |- never_exits (if ?c then _ else _) => destruct c
      | |- never_exits (match ?x with _ => _ end) => destruct x
      end ].

Lemma never_exits_link_state status : never_exits (link_state status).
Proof. unfold link_state. cbv zeta. never_exits. Qed.

Lemma never_exits_port_state speed status : never_exits (port_state speed status).
Proof. unfold port_state. never_exits. apply never_exits_link_state. Qed.

Lemma never_exits_dump_device sys verbose addr : never_exits (dump_device sys verbose addr).
Proof.
  unfold dump_device, print_speed, dump_ports. never_exits.
  apply never_exits_link_state.
Qed.

Lemma never_exits_print_device sys addr : never_exits (print_device sys addr).
Proof. unfold print_device. never_exits. Qed.

Lemma never_exits_print_config sys addr config quiet :
  never_exits (print_config sys addr config quiet).
Proof. unfold print_config, puts, warn. never_exits. Qed.

Lemma never_exits_walk buf wtotlen fuel : forall cur, never_exits (walk buf fuel wtotlen cur).
Proof.
  induction fuel as [| fuel IH]; intros cur; simpl.
  - destruct (cur <? wtotlen); [intros s c; discriminate | apply never_exits_ret].
  - destruct (cur <? wtotlen); [| apply never_exits_ret].
    unfold dispatch, print_fconfig, print_iface, print_endpt, print_unknown,
      transfer_type, sync_type, UGETW.
    cbv zeta. never_exits. apply IH.
Qed.

Lemma print_full_exit sys fuel addr config wtotlen s c :
  snd (print_full sys fuel addr config wtotlen s) = Exit c -> malloc_ok sys wtotlen = false.
Proof.
  unfold print_full, bind at 1, malloc.
  destruct (malloc_ok sys wtotlen); [| reflexivity].
  change (negb true) with false. cbv iota. intros H. exfalso. revert H.
  match goal with
  | |- snd (let (t', o) := ?m s in _) = _ -> False =>
      assert (Hm : never_exits m); [| specialize (Hm s c); destruct (m s); exact Hm]
  end.
  never_exits. apply never_exits_walk.
Qed.

(** C6.  For each of the four queries, with [w] the warning "addr %u" of
    the address unless the error is ENXIO, in which case [w] is empty:
    a query that fails produces nothing but [w] and the function returns,
    leaving the state as it was (so the loop over the addresses goes on);
    [print_full] exits when its [malloc] fails; and nothing else makes one
    of these functions exit. *)
Theorem query_failure_handling :
  forall sys verbose fuel addr config quiet wtotlen s errno,
    let w := if errno =? ENXIO then [] else [Warn "addr %u" [PInt addr]] in
    (deviceinfo sys addr = IocErr errno ->
     dump_device sys verbose addr s = (Ioctl USB_DEVICEINFO [addr] :: w, Ret (tt, s)))
    /\ (device_ddesc sys addr = IocErr errno ->
        print_device sys addr s = (Ioctl USB_DEVICE_GET_DDESC [addr] :: w, Ret (tt, s)))
    /\ (device_cdesc sys addr config = IocErr errno ->
        print_config sys addr config quiet s
        = (Ioctl USB_DEVICE_GET_CDESC [addr; config] :: w, Ret (0, s)))
    /\ (malloc_ok sys wtotlen = true ->
        device_fdesc sys addr config wtotlen = IocErr errno ->
        print_full sys fuel addr config wtotlen s
        = (Malloc wtotlen :: Ioctl USB_DEVICE_GET_FDESC [addr; config; wtotlen] :: w,
           Ret (tt, s)))
    /\ (malloc_ok sys wtotlen = false ->
        print_full sys fuel addr config wtotlen s
        = ([Malloc wtotlen; Errx "malloc"], Exit 1))
    /\ (forall c, snd (dump_device sys verbose addr s) <> Exit c)
    /\ (forall c, snd (print_device sys addr s) <> Exit c)
    /\ (forall c, snd (print_config sys addr config quiet s) <> Exit c)
    /\ (forall c, snd (print_full sys fuel addr config wtotlen s) = Exit c ->
                  malloc_ok sys wtotlen = false).
Proof.
  intros sys verbose fuel addr config quiet wtotlen s errno w.
  repeat apply conj.
  - intros H. unfold dump_device, bind, ioctl. rewrite H. subst w.
    destruct (errno =? ENXIO); reflexivity.
  - intros H. unfold print_device, bind, ioctl. rewrite H. subst w.
    destruct (errno =? ENXIO); reflexivity.
  - intros H. unfold print_config, bind, ioctl. rewrite H. subst w.
    destruct (errno =? ENXIO); reflexivity.
  - intros Hm H. unfold print_full, bind, ioctl, malloc. rewrite Hm, H. subst w.
    destruct (errno =? ENXIO); reflexivity.
  - intros Hm. unfold print_full, bind, malloc. rewrite Hm. reflexivity.
  - intros c. apply never_exits_dump_device.
  - intros c. apply never_exits_print_device.
  - intros c. apply never_exits_print_config.
  - intros c. apply print_full_exit.
Qed.

Lemma query_failure_handling_witness :
  dump_device no_devices 1 3 [] = ([Ioctl USB_DEVICEINFO [3]], Ret (tt, []))
  /\ print_config io_errors 3 0 true []
     = ([Ioctl USB_DEVICE_GET_CDESC [3; 0]; Warn "addr %u" [PInt 3]], Ret (0, []))
  /\ print_full out_of_memory 9 3 0 25 [] = ([Malloc 25; Errx "malloc"], Exit 1).
Proof.
  destruct (query_failure_handling no_devices 1 9 3 0 true 25 [] ENXIO)
    as (H1 & _).
  destruct (query_failure_handling io_errors 1 9 3 0 true 25 [] 5)
    as (_ & _ & H3 & _).
  destruct (query_failure_handling out_of_memory 1 9 3 0 true 25 [] ENXIO)
    as (_ & _ & _ & _ & H5 & _).
  exact (conj (H1 eq_refl) (conj (H3 eq_refl) (H5 eq_refl))).
Defined.

(** ** Silent blocks

    A block is silent for [obs] when it returns, leaves the state alone and
    shows nothing to [obs]. *)

Section Silent.
Context {X : Type} (obs : event -> list X).

Lemma silent_bind {A B : Type} (m : M A) (f : A -> M B) s a b :
  runs obs m s a s [] -> runs obs (f a) s b s [] -> runs obs (bind m f) s b s [].
Proof. intros H1 H2. exact (runs_bind obs m f s a s [] b s [] H1 H2). Qed.

Lemma silent_printf fmt args s :
  obs (Printf fmt args) = [] -> runs obs (printf fmt args) s tt s [].
Proof. intros H. rewrite <- H. apply runs_emit. Qed.

Lemma silent_when (c : bool) m s :
  (c = true -> runs obs m s tt s []) -> runs obs (when c m) s tt s [].
Proof. intros H. apply runs_when; auto. Qed.

Lemma silent_for_range body n lo s :
  (forall i, lo <= i < lo + Z.of_nat n -> runs obs (body i) s tt s []) ->
  runs obs (for_range n lo body) s tt s [].
Proof.
  intros H.
  replace (@nil X) with (flat_map (fun _ : Z => @nil X) (range n lo)).
  - apply runs_for_range_pure. exact H.
  - induction (range n lo); simpl; auto.
Qed.

(** A read inside the array followed by a silent [f]. *)
Lemma silent_read {A B : Type} (l : list A) i (f : A -> M B) s b :
  0 <= i < Z.of_nat (List.length l) ->
  (forall x, runs obs (f x) s b s []) -> runs obs (bind (aread l i) f) s b s [].
Proof.
  intros Hi Hf. destruct (nth_error_in_bounds l i Hi) as [x Hx].
  eapply silent_bind; [| apply Hf]. apply runs_aread; [lia | exact Hx].
Qed.
End Silent.

Ltac silent :=
  repeat first
    [ apply runs_ret
    | apply silent_printf; reflexivity
    | apply silent_when; intros _
    | match goal with
      | |- runs _ (if ?c then _ else _) _ _ _ _ => destruct c
      | |- runs _ (bind _ _) _ _ _ _ => eapply silent_bind
      end ].

(** ** Port status tier *)

Lemma link_state_silent {X : Type} (obs : event -> list X) status s :
  (forall fmt, obs (Printf fmt []) = []) ->
  runs obs (link_state status) s tt s [].
Proof.
  intros H. unfold link_state. cbv zeta.
  repeat match goal with |- runs _ (if ?c then _ else _) _ _ _ _ => destruct c end;
    first [apply silent_printf; apply H | apply runs_ret].
Qed.

Lemma port_state_silent {X : Type} (obs : event -> list X) speed status s :
  (forall fmt, obs (Printf fmt []) = []) ->
  runs obs (port_state speed status) s tt s [].
Proof.
  intros H. unfold port_state.
  do 4 (eapply silent_bind; [apply silent_when; intros _; apply silent_printf; apply H |]).
  destruct (speed <? USB_SPEED_SUPER).
  - eapply silent_bind; apply silent_when; intros _; apply silent_printf; apply H.
  - eapply silent_bind; [apply silent_when; intros _; apply silent_printf; apply H |].
    apply link_state_silent. exact H.
Qed.

Lemma MINIMUM_min a b : MINIMUM a b = Z.min a b.
Proof. unfold MINIMUM. destruct (Z.ltb_spec a b); lia. Qed.

(** C10.  The [verbose > 1] block of [dump_device] returns, so that no
    read of [udi_ports] is out of its bounds, and the port lines it prints
    are those of the ports 1 to [n], one each, where [n] is the minimum of
    the port count the device reports and the number of entries of
    [udi_ports]. *)
Theorem dump_ports_bounded :
  forall di s,
    let n := Z.to_nat (Z.min (udi_nports di) (Z.of_nat (List.length (udi_ports di)))) in
    exists t,
      dump_ports di s = (t, Ret (tt, s))
      /\ flat_map port_line t = map (fun port => port + 1) (range n 0)
      /\ List.length (flat_map port_line t) = n
      /\ (n <= List.length (udi_ports di))%nat.
Proof.
  intros di s n.
  assert (Hn : Z.of_nat n <= Z.of_nat (List.length (udi_ports di))) by (subst n; lia).
  assert (R : runs port_line (dump_ports di) s tt s
                   (map (fun port => port + 1) (range n 0))).
  { unfold dump_ports. cbv zeta. rewrite MINIMUM_min. fold n.
    replace (map (fun port => port + 1) (range n 0))
      with (flat_map (fun port => [port + 1]) (range n 0))
      by (induction (range n 0); simpl; congruence).
    apply runs_for_range_pure. intros i Hi. unfold dump_port.
    destruct (nth_error_in_bounds (udi_ports di) i ltac:(lia)) as [w Hw].
    replace [i + 1] with ([] ++ [i + 1] ++ [] ++ [] : list Z) by reflexivity.
    eapply runs_bind; [apply runs_aread; [lia | exact Hw] |].
    eapply runs_bind; [apply (runs_emit port_line) |].
    eapply runs_bind; [apply port_state_silent; reflexivity |].
    apply silent_printf. reflexivity. }
  destruct R as (t & E & D). exists t.
  repeat split; [exact E | exact D | | lia].
  rewrite D, length_map. apply range_length.
Qed.

(** A device that reports 200 ports has its 3 entries printed. *)
Example dump_ports_overlong :
  flat_map port_line
    (fst (dump_ports {| udi_bus := 0; udi_vendorNo := 0; udi_productNo := 0;
                        udi_releaseNo := 0; udi_vendor := ""; udi_product := "";
                        udi_release := ""; udi_serial := ""; udi_speed := 3;
                        udi_power := 0; udi_config := 1; udi_class := 9;
                        udi_subclass := 0; udi_protocol := 0; udi_devnames := [];
                        udi_nports := 200; udi_ports := [257; 0; 259] |} []))
  = [1; 2; 3].
Proof. reflexivity. Qed.

(** ** Enumeration driver *)

Lemma runs_ioctl {X : Type} (obs : event -> list X) {A : Type} req args (answer : ioc A) s :
  runs obs (ioctl req args answer) s answer s (obs (Ioctl req args)).
Proof. exists [Ioctl req args]. split; [reflexivity | simpl; apply app_nil_r]. Qed.

Lemma mark_spec (s : marks) (n : nat) :
  (n < List.length s)%nat ->
  exists s', mark s n = Some s'
             /\ List.length s' = List.length s
             /\ forall k, k <> n -> nth_error s' k = nth_error s k.
Proof.
  revert n. induction s as [| b s IH]; intros n Hn; simpl in Hn; [lia |].
  destruct n as [| n].
  - exists (true :: s). repeat split. intros [| k] Hk; [contradiction | reflexivity].
  - destruct (IH n ltac:(lia)) as (s' & E & L & K).
    exists (b :: s'). simpl. rewrite E. repeat split.
    + simpl. now rewrite L.
    + intros [| k] Hk; [reflexivity | simpl; apply K; lia].
Qed.

Lemma set_done_runs {X : Type} (obs : event -> list X) addr s :
  0 <= addr < Z.of_nat (List.length s) ->
  exists s', runs obs (set_done addr) s tt s' []
             /\ List.length s' = List.length s
             /\ forall j, 0 <= j -> j <> addr ->
                          nth_error s' (Z.to_nat j) = nth_error s (Z.to_nat j).
Proof.
  intros H. destruct (mark_spec s (Z.to_nat addr) ltac:(lia)) as (s' & E & L & K).
  exists s'. repeat split; [| exact L | intros j Hj Hne; apply K; lia].
  exists []. split; [| reflexivity]. unfold set_done.
  destruct (addr <? 0) eqn:E0; [apply Z.ltb_lt in E0; lia |]. now rewrite E.
Qed.

Lemma dump_ports_silent {X : Type} (obs : event -> list X) di s :
  (forall fmt, obs (Printf fmt []) = []) ->
  (forall args, obs (Printf port_fmt args) = []) ->
  runs obs (dump_ports di) s tt s [].
Proof.
  intros H0 Hp. unfold dump_ports. cbv zeta. rewrite MINIMUM_min.
  apply silent_for_range. intros i Hi. unfold dump_port.
  apply silent_read; [lia | intros w].
  eapply silent_bind; [apply silent_printf; apply Hp |].
  eapply silent_bind; [apply port_state_silent; exact H0 |].
  apply silent_printf. apply H0.
Qed.

Lemma print_speed_silent {X : Type} (obs : event -> list X) speed s :
  (forall fmt, obs (Printf fmt []) = []) ->
  runs obs (print_speed speed) s tt s [].
Proof.
  intros H. unfold print_speed.
  repeat match goal with |- runs _ (if ?c then _ else _) _ _ _ _ => destruct c end;
    first [apply silent_printf; apply H | apply runs_ret].
Qed.

(** The live-info query of one address shows what is [expected] of it, and
    marks no other address as done. *)
Lemma dump_device_observed sys verbose addr s :
  well_formed sys ->
  0 <= addr < Z.of_nat (List.length s) ->
  exists s', runs observe (dump_device sys verbose addr) s tt s' (expected sys addr)
             /\ List.length s' = List.length s
             /\ forall j, 0 <= j -> j <> addr ->
                          nth_error s' (Z.to_nat j) = nth_error s (Z.to_nat j).
Proof.
  intros Hwf Haddr. unfold dump_device, expected.
  destruct (deviceinfo sys addr) as [di | errno] eqn:E.
  - destruct (set_done_runs observe addr s Haddr) as (s' & Rs & L & K).
    exists s'. repeat split; [| exact L | exact K].
    change ((Queried, addr) :: [(Reported, addr)])
      with ([(Queried, addr)] ++ [] ++ [(Reported, addr)] ++ []).
    eapply runs_bind; [apply (runs_ioctl observe) |]. cbv beta iota.
    eapply runs_bind; [exact Rs |].
    eapply runs_bind; [apply (runs_emit observe) |].
    eapply silent_bind.
    { apply silent_when; intros _.
      eapply silent_bind; [apply silent_printf; reflexivity |].
      eapply silent_bind; [apply print_speed_silent; reflexivity |].
      silent. }
    eapply silent_bind; [apply silent_printf; reflexivity |].
    eapply silent_bind.
    { apply silent_when; intros _. apply silent_for_range. intros i Hi.
      apply silent_read; [rewrite (Hwf addr di E); lia | intros name]. silent. }
    apply silent_when; intros _.
    apply dump_ports_silent; [reflexivity | intros [| [] ?]; reflexivity].
  - exists s. repeat split.
    change ((Queried, addr) :: (if errno =? ENXIO then [] else [(Warned, addr)]))
      with ([(Queried, addr)] ++ (if errno =? ENXIO then [] else [(Warned, addr)])).
    eapply runs_bind; [apply (runs_ioctl observe) |]. cbv beta iota.
    destruct (errno =? ENXIO); simpl; [apply runs_ret | apply (runs_emit observe)].
Qed.

Lemma nth_error_repeat_false n k :
  (k < n)%nat -> nth_error (repeat false n) k = Some false.
Proof.
  revert k. induction n as [| n IH]; intros k Hk; [lia |].
  destruct k; simpl; [reflexivity | apply IH; lia].
Qed.

(** The addresses are 1, 2, ..., 127. *)
Lemma addresses_ascending : addresses = map Z.of_nat (seq 1 127).
Proof. reflexivity. Qed.

(** C7.  [dump_controller] with address 0 shows, for the addresses 1 to
    [USB_MAX_DEVICES - 1] in ascending order, what is [expected] of each:
    one query, followed by one report if a device is there, by one warning
    if the query failed with another error than ENXIO, and by nothing if no
    device is there.  With an address other than 0 it shows what is expected
    of that address alone.  In both cases it returns. *)
Theorem dump_controller_enumerates :
  forall sys verbose name addr s,
    well_formed sys ->
    0 <= addr < USB_MAX_DEVICES ->
    exists s',
      runs observe (dump_controller sys verbose name addr) s tt s'
           (if addr =? 0 then flat_map (expected sys) addresses else expected sys addr).
Proof.
  intros sys verbose name addr s Hwf Haddr. unfold dump_controller.
  set (s0 := repeat false (Z.to_nat USB_MAX_DEVICES)).
  assert (L0 : List.length s0 = 128%nat) by reflexivity.
  assert (R0 : runs observe memset_done s tt s0 []) by (exists []; split; reflexivity).
  unfold nonzero. destruct (addr =? 0) eqn:E0; simpl negb; cbv iota.
  - pose (I := fun (i : Z) (st : marks) =>
                 List.length st = 128%nat
                 /\ forall j, i <= j < 128 -> nth_error st (Z.to_nat j) = Some false).
    destruct (runs_for_range observe I (expected sys)
                (fun a => d <- get_done a ;; when (negb d) (dump_device sys verbose a))
                (Z.to_nat (USB_MAX_DEVICES - 1)) 1 s0) as (s' & R & _).
    + intros i st Hi [Hlen Hfree].
      change (Z.of_nat (Z.to_nat (USB_MAX_DEVICES - 1))) with 127 in Hi.
      destruct (dump_device_observed sys verbose i st Hwf ltac:(lia)) as (s1 & R1 & L1 & K1).
      exists s1. split.
      * change (expected sys i) with ([] ++ expected sys i).
        eapply runs_bind.
        -- unfold get_done. apply runs_aread; [lia | apply Hfree; lia].
        -- exact R1.
      * split; [congruence |]. intros j Hj. rewrite K1 by lia. apply Hfree. lia.
    + split; [exact L0 |]. intros j Hj. apply nth_error_repeat_false.
      change (Z.to_nat USB_MAX_DEVICES) with 128%nat. lia.
    + exists s'.
      change (flat_map (expected sys) addresses)
        with ([] ++ [] ++ flat_map (expected sys) addresses).
      eapply runs_bind; [exact R0 |].
      eapply runs_bind; [apply silent_printf; reflexivity |].
      exact R.
  - apply Z.eqb_neq in E0.
    destruct (dump_device_observed sys verbose addr s0 Hwf) as (s' & R & _).
    + rewrite L0. unfold USB_MAX_DEVICES in Haddr. lia.
    + exists s'. change (expected sys addr) with ([] ++ expected sys addr).
      eapply runs_bind; [exact R0 | exact R].
Qed.

Lemma two_devices_well_formed : well_formed two_devices.
Proof.
  intros addr di. simpl.
  destruct (addr =? 3); [intros [= <-]; reflexivity |].
  destruct (addr =? 7); [intros [= <-]; reflexivity | discriminate].
Defined.

Lemma dump_controller_enumerates_witness :
  well_formed two_devices
  /\ 0 <= 0 < USB_MAX_DEVICES
  /\ exists s',
       runs observe (dump_controller two_devices 2 "/dev/usb0" 0) [] tt s'
            (flat_map (expected two_devices) addresses).
Proof.
  split; [exact two_devices_well_formed |].
  split; [unfold USB_MAX_DEVICES; lia |].
  exact (dump_controller_enumerates two_devices 2 "/dev/usb0" 0 []
           two_devices_well_formed ltac:(unfold USB_MAX_DEVICES; lia)).
Defined.

(** With devices at the addresses 3 and 7 only: two reports, of 3 then of 7,
    and no warning. *)
Example two_devices_reports :
  filter (fun o => match fst o with Queried => false | _ => true end)
         (flat_map observe (fst (dump_controller two_devices 2 "/dev/usb0" 0 [])))
  = [(Reported, 3); (Reported, 7)].
Proof. vm_compute. reflexivity. Qed.

(** ** Port status of SuperSpeed and slower devices *)

(** The link-state field covers bit 8, the power bit of the slower
    devices: with link state U3 that bit is 0. *)
Lemma link_state_u3_clears_power status :
  UPS_PORT_LS_GET status = UPS_PORT_LS_U3 -> Z.land status UPS_PORT_POWER = 0.
Proof.
  unfold UPS_PORT_LS_GET, UPS_PORT_LS_U3, UPS_PORT_POWER. intros H.
  assert (H8 : Z.testbit status 8 = false).
  { apply (f_equal (fun z => Z.testbit z 3)) in H.
    rewrite Z.land_spec, Z.shiftr_spec in H by lia.
    simpl in H. now rewrite andb_true_r in H. }
  apply Z.bits_inj'. intros n Hn. rewrite Z.land_spec, Z.bits_0.
  destruct (Z.eq_dec n 8) as [-> | Hne].
  - now rewrite H8.
  - change 256 with (2 ^ 8). rewrite Z.pow2_bits_false by lia. apply andb_false_r.
Qed.

(** C8.  For a port status with the SuperSpeed power bit set and link
    state 3: for a device of speed [USB_SPEED_SUPER] or above the labels
    " power" and " U3" are among those printed; for a slower device neither
    of them is. *)
Theorem port_state_superspeed_u3 :
  forall status speed s,
    Z.land status UPS_PORT_POWER_SS <> 0 ->
    UPS_PORT_LS_GET status = UPS_PORT_LS_U3 ->
    exists t,
      port_state speed status s = (t, Ret (tt, s))
      /\ if speed <? USB_SPEED_SUPER
         then ~ In (Printf " power" []) t /\ ~ In (Printf " U3" []) t
         else In (Printf " power" []) t /\ In (Printf " U3" []) t.
Proof.
  intros status speed s Hss Hls.
  pose proof (link_state_u3_clears_power status Hls) as Hpow.
  unfold port_state, link_state. rewrite Hls, Hpow.
  apply Z.eqb_neq in Hss. unfold nonzero. rewrite Hss.
  unfold bind, when, printf, emit, ret.
  destruct (Z.land status UPS_CURRENT_CONNECT_STATUS =? 0);
    destruct (Z.land status UPS_PORT_ENABLED =? 0);
    destruct (Z.land status UPS_SUSPEND =? 0);
    destruct (Z.land status UPS_OVERCURRENT_INDICATOR =? 0);
    destruct (speed <? USB_SPEED_SUPER);
    try destruct (Z.land status UPS_PORT_L1 =? 0);
    simpl; eexists; (split; [reflexivity |]); simpl;
    (split; [try tauto | try tauto]);
    try (intros H; repeat (destruct H as [H | H]; [discriminate H |]); exact H).
Qed.

Lemma port_state_superspeed_u3_witness :
  Z.land 608 UPS_PORT_POWER_SS <> 0
  /\ UPS_PORT_LS_GET 608 = UPS_PORT_LS_U3
  /\ (exists t, port_state USB_SPEED_SUPER 608 [] = (t, Ret (tt, []))
                /\ In (Printf " power" []) t /\ In (Printf " U3" []) t)
  /\ (exists t, port_state USB_SPEED_HIGH 608 [] = (t, Ret (tt, []))
                /\ ~ In (Printf " power" []) t /\ ~ In (Printf " U3" []) t).
Proof.
  assert (H1 : Z.land 608 UPS_PORT_POWER_SS <> 0) by (simpl; lia).
  assert (H2 : UPS_PORT_LS_GET 608 = UPS_PORT_LS_U3) by reflexivity.
  split; [exact H1 |]. split; [exact H2 |].
  split.
  - exact (port_state_superspeed_u3 608 USB_SPEED_SUPER [] H1 H2).
  - exact (port_state_superspeed_u3 608 USB_SPEED_HIGH [] H1 H2).
Defined.

(** The same status under both speeds. *)
Example port_state_0x260 :
  fst (port_state USB_SPEED_SUPER 608 []) = [Printf " power" []; Printf " U3" []]
  /\ fst (port_state USB_SPEED_HIGH 608 []) = [Printf " l1" []].
Proof. split; reflexivity. Qed.

(** ** Escaping of the string fields *)

Lemma string_forall_app p s t :
  string_forall p (s ++ t)%string = string_forall p s && string_forall p t.
Proof. induction s as [| c s IH]; simpl; [reflexivity | now rewrite IH, andb_assoc]. Qed.

(** What [vis] emits for one character is decoded back to it. *)
Lemma strunvis_vis c nextc t :
  code c <> 0 ->
  strunvis (string_of_codes (vis (code c) VIS_CSTYLE nextc) ++ t)
  = option_map (String c) (strunvis t).
Proof.
  destruct c as [[] [] [] [] [] [] [] []]; intros H;
    first [reflexivity | exfalso; apply H; reflexivity].
Qed.

(** What [vis] emits for one character is printable, a tab or a newline. *)
Lemma vis_passes c nextc :
  code c <> 0 ->
  string_forall passes (string_of_codes (vis (code c) VIS_CSTYLE nextc)) = true.
Proof.
  destruct c as [[] [] [] [] [] [] [] []]; intros H;
    first [reflexivity | exfalso; apply H; reflexivity].
Qed.

Lemma strvis_cons c r flag :
  code c <> 0 ->
  strvis (String c r) flag
  = (string_of_codes (vis (code c) flag
                          match r with EmptyString => 0 | String n _ => code n end)
       ++ strvis r flag)%string.
Proof.
  intros H. simpl. destruct (code c =? 0) eqn:E; [apply Z.eqb_eq in E; contradiction |].
  reflexivity.
Qed.

(** C9, as amended.  For every string without NUL, the text
    [strvis(.., VIS_CSTYLE)] makes of it consists of printable ASCII
    characters, tabs and newlines only, so that it holds no raw control
    byte other than tab and newline, and [strunvis] recovers the string
    from it exactly. *)
Theorem strvis_cstyle_reversible :
  forall s,
    no_nul s = true ->
    string_forall passes (strvis s VIS_CSTYLE) = true
    /\ strunvis (strvis s VIS_CSTYLE) = Some s.
Proof.
  induction s as [| c r IH]; intros H; [split; reflexivity |].
  unfold no_nul in H. simpl in H. apply andb_true_iff in H. destruct H as [Hc Hr].
  assert (Hne : code c <> 0).
  { unfold nonzero in Hc. apply negb_true_iff, Z.eqb_neq in Hc. exact Hc. }
  destruct (IH Hr) as [IH1 IH2].
  rewrite strvis_cons by exact Hne. split.
  - rewrite string_forall_app, vis_passes by exact Hne. exact IH1.
  - rewrite strunvis_vis by exact Hne. rewrite IH2. reflexivity.
Qed.

Lemma strvis_cstyle_reversible_witness :
  no_nul (String (chr 7) (String "\" (String (chr 200) two_lines))) = true
  /\ string_forall passes
       (strvis (String (chr 7) (String "\" (String (chr 200) two_lines))) VIS_CSTYLE) = true
  /\ strunvis (strvis (String (chr 7) (String "\" (String (chr 200) two_lines))) VIS_CSTYLE)
     = Some (String (chr 7) (String "\" (String (chr 200) two_lines))).
Proof.
  split; [reflexivity |].
  exact (strvis_cstyle_reversible
           (String (chr 7) (String "\" (String (chr 200) two_lines))) eq_refl).
Defined.

(** C9 as stated fails.  [VIS_CSTYLE] alone does not make [vis] encode
    newline and tab: a vendor string of two lines is printed with its raw
    newline, a control byte. *)
Lemma strvis_keeps_newline :
  strvis two_lines VIS_CSTYLE = two_lines
  /\ string_forall (fun c => negb (raw_control c)) (strvis two_lines VIS_CSTYLE) = false
  /\ fst (dump_device two_line_device 0 1 [false; false])
     = [Ioctl USB_DEVICEINFO [1];
        Printf "addr %02u: %04x:%04x %s, %s, usb_bus: %hhu"
               [PInt 1; PInt 1; PInt 2; PStr two_lines; PStr "P"; PInt 0];
        Printf "\n" []].
Proof. repeat split. Qed.

(** * Further properties *)

(** ** Static-descriptor and configuration decode over the addresses *)

Lemma runs_after_silent {X A B : Type} (obs : event -> list X)
      (m : M A) (f : A -> M B) s a s1 b s2 d :
  runs obs m s a s1 [] -> runs obs (f a) s1 b s2 d -> runs obs (bind m f) s b s2 d.
Proof. intros H1 H2. exact (runs_bind obs m f s a s1 [] b s2 d H1 H2). Qed.

Lemma runs_then_silent {X A B : Type} (obs : event -> list X)
      (m : M A) (f : A -> M B) s a s1 b s2 d :
  runs obs m s a s1 d -> runs obs (f a) s1 b s2 [] -> runs obs (bind m f) s b s2 d.
Proof.
  intros H1 H2. rewrite <- (app_nil_r d).
  exact (runs_bind obs m f s a s1 d b s2 [] H1 H2).
Qed.

Lemma print_device_observed sys addr s :
  runs (observe_with ddesc_fmt) (print_device sys addr) s tt s
       (expected_of (device_ddesc sys addr) addr).
Proof.
  unfold print_device, expected_of.
  destruct (device_ddesc sys addr) as [dd | errno].
  - change ((Queried, addr) :: [(Reported, addr)])
      with ([(Queried, addr)] ++ [(Reported, addr)]).
    eapply runs_bind; [apply (runs_ioctl (observe_with ddesc_fmt)) |].
    apply (runs_emit (observe_with ddesc_fmt)).
  - change ((Queried, addr) :: (if errno =? ENXIO then [] else [(Warned, addr)]))
      with ([(Queried, addr)] ++ (if errno =? ENXIO then [] else [(Warned, addr)])).
    eapply runs_bind; [apply (runs_ioctl (observe_with ddesc_fmt)) |]. cbv beta iota.
    destruct (errno =? ENXIO); simpl;
      [apply runs_ret | apply (runs_emit (observe_with ddesc_fmt))].
Qed.

(** X1.  [dump_device_desc] with address 0 queries the device descriptor
    of the addresses 1 to 127 in ascending order, once each, and prints one
    line for each address that answers, one warning for each query that
    fails with another error than ENXIO and nothing for ENXIO; with another
    address it does so for that address alone.  It always returns and
    leaves the marks alone. *)
Theorem dump_device_desc_enumerates :
  forall sys name addr s,
    runs (observe_with ddesc_fmt) (dump_device_desc sys name addr) s tt s
         (if addr =? 0
          then flat_map (fun a => expected_of (device_ddesc sys a) a) addresses
          else expected_of (device_ddesc sys addr) addr).
Proof.
  intros sys name addr s. unfold dump_device_desc, nonzero.
  destruct (addr =? 0); simpl negb; cbv iota.
  - eapply runs_after_silent; [apply silent_printf; reflexivity |].
    apply runs_for_range_pure. intros i _. apply print_device_observed.
  - apply print_device_observed.
Qed.

Lemma print_config_observed sys addr config s :
  exists w,
    runs (observe_with cdesc_fmt) (print_config sys addr config false) s w s
         (expected_of (device_cdesc sys addr config) addr).
Proof.
  unfold print_config, expected_of.
  destruct (device_cdesc sys addr config) as [cd | errno].
  - exists (wTotalLength cd mod 65536).
    change ((Queried, addr) :: [(Reported, addr)])
      with ([(Queried, addr)] ++ ([(Reported, addr)] ++ []) ++ []).
    eapply runs_bind; [apply (runs_ioctl (observe_with cdesc_fmt)) |]. cbv beta iota.
    eapply runs_bind; [| apply runs_ret].
    change (negb false) with true. unfold when at 1.
    eapply runs_bind; [apply (runs_emit (observe_with cdesc_fmt)) |].
    unfold puts. silent. apply (runs_emit (observe_with cdesc_fmt)).
  - exists 0.
    change ((Queried, addr) :: (if errno =? ENXIO then [] else [(Warned, addr)]))
      with ([(Queried, addr)] ++ (if errno =? ENXIO then [] else [(Warned, addr)])).
    eapply runs_bind; [apply (runs_ioctl (observe_with cdesc_fmt)) |]. cbv beta iota.
    eapply runs_then_silent; [| apply runs_ret].
    destruct (errno =? ENXIO); simpl;
      [apply runs_ret | apply (runs_emit (observe_with cdesc_fmt))].
Qed.

(** X2.  [dump_config] with address 0 queries the configuration
    descriptor of index [config] of the addresses 1 to 127 in ascending
    order, once each, with one summary line for each address that answers,
    one warning for each query that fails with another error than ENXIO and
    nothing for ENXIO; with another address it does so for that address
    alone.  It always returns and leaves the marks alone. *)
Theorem dump_config_enumerates :
  forall sys name addr config s,
    runs (observe_with cdesc_fmt) (dump_config sys name addr config) s tt s
         (if addr =? 0
          then flat_map (fun a => expected_of (device_cdesc sys a config) a) addresses
          else expected_of (device_cdesc sys addr config) addr).
Proof.
  intros sys name addr config s. unfold dump_config, nonzero.
  assert (Hone : forall a, runs (observe_with cdesc_fmt)
                                (print_config sys a config false ;; ret tt) s tt s
                                (expected_of (device_cdesc sys a config) a)).
  { intros a. destruct (print_config_observed sys a config s) as [w R].
    eapply runs_then_silent; [exact R | apply runs_ret]. }
  destruct (addr =? 0); simpl negb; cbv iota.
  - eapply runs_after_silent; [apply silent_printf; reflexivity |].
    apply runs_for_range_pure. intros i _. apply Hone.
  - apply Hone.
Qed.

(** X3.  The quiet configuration decode prints nothing on standard
    output, returns what the decode that prints returns, and that is a
    16-bit value (0 when the query fails); the marks are left alone. *)
Theorem print_config_quiet :
  forall sys addr config s,
    filter is_stdout (fst (print_config sys addr config true s)) = []
    /\ snd (print_config sys addr config true s)
       = snd (print_config sys addr config false s)
    /\ exists w, snd (print_config sys addr config true s) = Ret (w, s)
                 /\ 0 <= w < 65536
                 /\ (forall errno, device_cdesc sys addr config = IocErr errno -> w = 0).
Proof.
  intros sys addr config s.
  unfold print_config, bind, ioctl, when, printf, puts, warn, emit, ret, nonzero.
  destruct (device_cdesc sys addr config) as [cd | errno]; simpl.
  - repeat split.
    + destruct (Z.land (bmAttributes cd) UC_BUS_POWERED =? 0);
        destruct (Z.land (bmAttributes cd) UC_SELF_POWERED =? 0);
        destruct (Z.land (bmAttributes cd) UC_REMOTE_WAKEUP =? 0); reflexivity.
    + exists (wTotalLength cd mod 65536). repeat split.
      * apply Z.mod_pos_bound. lia.
      * apply Z.mod_pos_bound. lia.
      * discriminate.
  - destruct (errno =? ENXIO); simpl; (repeat split; exists 0; repeat split; lia).
Qed.

(** ** Transfer type of an endpoint *)


(** ** What a walk that returns has read *)

Lemma bind_ret_inv {A B : Type} (m : M A) (f : A -> M B) s t r :
  bind m f s = (t, Ret r) ->
  exists t1 a s1 t2, m s = (t1, Ret (a, s1)) /\ f a s1 = (t2, Ret r) /\ t = t1 ++ t2.
Proof.
  unfold bind. destruct (m s) as [t1 [[a s1] | c | off |]]; try discriminate.
  destruct (f a s1) as [t2 o] eqn:E. intros [= <- ->].
  exists t1, a, s1, t2. auto.
Qed.

Lemma aread_ret_inv {A : Type} (l : list A) i s t x s' :
  aread l i s = (t, Ret (x, s')) ->
  t = [] /\ s' = s /\ 0 <= i /\ nth_error l (Z.to_nat i) = Some x.
Proof.
  unfold aread. destruct (i <? 0) eqn:E; [discriminate |].
  apply Z.ltb_ge in E.
  destruct (nth_error l (Z.to_nat i)) eqn:N; [| discriminate].
  intros [= <- <- <-]. auto.
Qed.

(** A read that is followed by anything and returns was in bounds. *)
Lemma read_then_ret {A B : Type} (l : list A) i (f : A -> M B) s t r :
  bind (aread l i) f s = (t, Ret r) ->
  exists x, nth_error l (Z.to_nat i) = Some x /\ 0 <= i < Z.of_nat (List.length l)
            /\ f x s = (t, Ret r).
Proof.
  intros H. apply bind_ret_inv in H. destruct H as (t1 & x & s1 & t2 & H1 & H2 & ->).
  pose proof (aread_ret_in_bounds _ _ _ _ _ _ H1) as Hb.
  apply aread_ret_inv in H1. destruct H1 as (-> & -> & _ & Hx).
  exists x. auto.
Qed.

Lemma emit_then_ret {B : Type} e (f : unit -> M B) s t r :
  bind (emit e) f s = (t, Ret r) -> exists t2, f tt s = (t2, Ret r).
Proof.
  intros H. apply bind_ret_inv in H. destruct H as (t1 & [] & s1 & t2 & H1 & H2 & ->).
  unfold emit in H1. injection H1 as <- <-. eauto.
Qed.

(** The last round of a loop that returns has run. *)
Lemma for_range_ret_last body n lo s t r :
  for_range (S n) lo body s = (t, Ret r) ->
  exists s1 t1 r1, body (lo + Z.of_nat n) s1 = (t1, Ret r1).
Proof.
  revert lo s t. induction n as [| n IH]; intros lo s t H.
  - simpl in H. apply bind_ret_inv in H.
    destruct H as (t1 & a & s1 & t2 & H1 & _ & _).
    exists s, t1, (a, s1). now replace (lo + Z.of_nat 0) with lo by lia.
  - change (for_range (S (S n)) lo body) with (body lo ;; for_range (S n) (lo + 1) body) in H.
    apply bind_ret_inv in H. destruct H as (t1 & a & s1 & t2 & _ & H2 & _).
    destruct (IH _ _ _ H2) as (s2 & t3 & r3 & E).
    exists s2, t3, r3. now replace (lo + Z.of_nat (S n)) with (lo + 1 + Z.of_nat n) by lia.
Qed.

Lemma dispatch_ret_extent buf cur len s t r :
  0 <= cur ->
  nth_error buf (Z.to_nat cur) = Some len ->
  dispatch buf cur s = (t, Ret r) ->
  exists tag, nth_error buf (Z.to_nat (cur + 1)) = Some tag
              /\ cur + extent tag len <= Z.of_nat (List.length buf).
Proof.
  intros H0 Hlen H. unfold dispatch in H.
  apply read_then_ret in H. destruct H as (tag & Htag & Hb1 & H).
  exists tag. split; [exact Htag |]. unfold extent.
  destruct (tag =? C_DESC).
  { unfold print_fconfig in H. apply read_then_ret in H.
    destruct H as (? & _ & Hb & _). lia. }
  destruct (tag =? I_DESC).
  { unfold print_iface in H.
    do 6 (apply read_then_ret in H; destruct H as (? & _ & ? & H)). lia. }
  destruct (tag =? E_DESC).
  { unfold print_endpt in H.
    apply read_then_ret in H; destruct H as (? & _ & ? & H).
    apply emit_then_ret in H; destruct H as (? & H).
    apply read_then_ret in H; destruct H as (? & _ & ? & H).
    apply bind_ret_inv in H. destruct H as (? & ? & ? & ? & _ & H & _).
    apply bind_ret_inv in H. destruct H as (? & ? & ? & ? & _ & H & _).
    apply read_then_ret in H; destruct H as (? & _ & ? & H). lia. }
  unfold print_unknown in H.
  apply read_then_ret in H; destruct H as (? & _ & ? & H).
  apply emit_then_ret in H; destruct H as (? & H).
  apply bind_ret_inv in H. destruct H as (? & len' & ? & ? & Hr & H & _).
  apply aread_ret_inv in Hr. destruct Hr as (_ & _ & _ & Hr).
  assert (len' = len) by congruence. subst len'.
  apply bind_ret_inv in H. destruct H as (? & ? & ? & ? & Hloop & _ & _).
  destruct (Z.to_nat len) as [| n] eqn:En; [lia |].
  apply for_range_ret_last in Hloop. destruct Hloop as (? & ? & ? & Hlast).
  apply bind_ret_inv in Hlast. destruct Hlast as (? & ? & ? & ? & _ & Hlast & _).
  apply read_then_ret in Hlast. destruct Hlast as (? & _ & ? & _). lia.
Qed.

Lemma walk_ret_safe_chain buf :
  bytes buf ->
  forall fuel cur s t r,
    0 <= cur ->
    walk buf fuel (Z.of_nat (List.length buf)) cur s = (t, Ret r) ->
    safe_chain buf cur.
Proof.
  intros Hbytes. induction fuel as [| fuel IH]; intros cur s t r H0 H.
  - simpl in H. destruct (cur <? Z.of_nat (List.length buf)) eqn:E; [discriminate |].
    apply chain_end. apply Z.ltb_ge in E. exact E.
  - rewrite walk_unfold in H.
    destruct (cur <? Z.of_nat (List.length buf)) eqn:E;
      [| apply chain_end; apply Z.ltb_ge in E; exact E].
    apply bind_ret_inv in H. destruct H as (t1 & [] & s1 & t2 & Hd & H & _).
    apply read_then_ret in H. destruct H as (len & Hlen & _ & H).
    apply bind_ret_inv in H. destruct H as (t3 & cs & s2 & t4 & Hw & _ & _).
    destruct (dispatch_ret_extent buf cur len s t1 (tt, s1) H0 Hlen Hd) as (tag & Htag & Hext).
    assert (Hrange : 0 <= len < 256).
    { unfold bytes in Hbytes. rewrite Forall_forall in Hbytes.
      apply Hbytes. eapply nth_error_In. exact Hlen. }
    assert (Hpos : 0 < len).
    { destruct (Z.eq_dec len 0) as [-> | Hne]; [| lia]. exfalso.
      replace (cur + 0) with cur in Hw by lia.
      apply Z.ltb_lt in E.
      exact (walk_zero_length_never_returns buf _ cur E H0 Hlen fuel s1 t3 (cs, s2) Hw). }
    eapply chain_next; eauto. eapply IH; [| exact Hw]. lia.
Qed.

(** X5.  For a buffer of bytes, the walk over it returns with some fuel
    exactly when the buffer is a [safe_chain]: a buffer that is not one makes
    the walk read outside of it or never end. *)
Theorem walker_returns_iff_safe_chain :
  forall buf,
    bytes buf ->
    (exists fuel out cursors, walker fuel buf = (out, Ret (cursors, [])))
    <-> safe_chain buf 0.
Proof.
  intros buf Hbytes. split.
  - intros (fuel & out & cs & H). unfold walker in H.
    eapply (walk_ret_safe_chain buf Hbytes fuel 0 [] out (cs, [])); [lia | exact H].
  - intros H.
    destruct (walk_safe_chain buf 0 H ltac:(lia) (List.length buf) [] ltac:(lia))
      as (out & cs & E & _).
    exists (List.length buf), out, cs. exact E.
Qed.

Lemma config_chain_bytes : bytes config_chain.
Proof. unfold bytes, config_chain. repeat constructor; lia. Defined.

Lemma config_chain_safe : safe_chain config_chain 0.
Proof.
  unfold config_chain.
  eapply chain_next; [reflexivity | reflexivity | lia | unfold extent; simpl; lia |].
  eapply chain_next; [reflexivity | reflexivity | lia | unfold extent; simpl; lia |].
  eapply chain_next; [reflexivity | reflexivity | lia | unfold extent; simpl; lia |].
  apply chain_end. simpl. lia.
Defined.

Lemma walker_returns_iff_safe_chain_witness :
  bytes config_chain
  /\ ((exists fuel out cursors, walker fuel config_chain = (out, Ret (cursors, [])))
      <-> safe_chain config_chain 0).
Proof.
  split; [exact config_chain_bytes |].
  exact (walker_returns_iff_safe_chain config_chain config_chain_bytes).
Defined.

(** ** Hex dump of an unknown sub-descriptor *)

Lemma skipn_nth_error {A : Type} (l : list A) k x :
  nth_error l k = Some x -> skipn k l = x :: skipn (S k) l.
Proof.
  revert k. induction l as [| y l IH]; intros [| k] H; simpl in *; try discriminate.
  - now injection H as ->.
  - now apply IH.
Qed.

Lemma range_reads_firstn (buf : list Z) n :
  forall k,
    (k + n <= List.length buf)%nat ->
    flat_map (fun i => match nth_error buf (Z.to_nat i) with
                       | Some b => [b]
                       | None => []
                       end) (range n (Z.of_nat k))
    = firstn n (skipn k buf).
Proof.
  induction n as [| n IH]; intros k Hk; [reflexivity |].
  simpl range. simpl flat_map. rewrite Nat2Z.id.
  destruct (nth_error buf k) as [x |] eqn:E;
    [| apply nth_error_None in E; lia].
  rewrite (skipn_nth_error _ _ _ E). simpl. f_equal.
  replace (Z.of_nat k + 1) with (Z.of_nat (S k)) by lia.
  apply IH. lia.
Qed.

Lemma range_reads_from (buf : list Z) cur n :
  0 <= cur ->
  cur + Z.of_nat n <= Z.of_nat (List.length buf) ->
  flat_map (fun i => match nth_error buf (Z.to_nat (cur + i)) with
                     | Some b => [b]
                     | None => []
                     end) (range n 0)
  = firstn n (skipn (Z.to_nat cur) buf).
Proof.
  intros H0 Hn.
  rewrite <- (range_reads_firstn buf n (Z.to_nat cur)) by lia.
  rewrite Z2Nat.id by lia.
  assert (Hshift : forall m lo,
             flat_map (fun i => match nth_error buf (Z.to_nat (cur + i)) with
                                | Some b => [b]
                                | None => []
                                end) (range m lo)
             = flat_map (fun i => match nth_error buf (Z.to_nat i) with
                                  | Some b => [b]
                                  | None => []
                                  end) (range m (cur + lo))).
  { induction m as [| m IH]; intros lo; [reflexivity |].
    simpl. f_equal. rewrite IH. now replace (cur + lo + 1) with (cur + (lo + 1)) by lia. }
  rewrite Hshift. now replace (cur + 0) with cur by lia.
Qed.

(** X6.  [print_unknown] dumps the sub-descriptor it is given, no more and
    no less: for a length byte [len] that keeps the sub-descriptor inside the
    buffer, the bytes of its hex items are the [len] bytes of the buffer
    from the cursor on, in order. *)
Theorem print_unknown_dumps_descriptor :
  forall buf cur len s,
    0 <= cur ->
    nth_error buf (Z.to_nat cur) = Some len ->
    cur + Z.max 2 len <= Z.of_nat (List.length buf) ->
    runs hex_byte (print_unknown buf cur) s tt s
         (firstn (Z.to_nat len) (skipn (Z.to_nat cur) buf)).
Proof.
  intros buf cur len s H0 Hlen Hext. unfold print_unknown.
  destruct (nth_error_in_bounds buf (cur + 1) ltac:(lia)) as [b1 Hb1].
  eapply runs_after_silent; [apply runs_aread; [lia | exact Hb1] |].
  eapply runs_after_silent; [apply silent_printf; reflexivity |].
  eapply runs_after_silent; [apply runs_aread; [lia | exact Hlen] |].
  eapply runs_then_silent; [| apply silent_printf; reflexivity].
  rewrite <- (range_reads_from buf cur (Z.to_nat len)) by lia.
  apply runs_for_range_pure. intros i Hi.
  destruct (nth_error_in_bounds buf (cur + i) ltac:(lia)) as [b Hb].
  eapply runs_after_silent; [apply silent_when; intros _; apply silent_printf; reflexivity |].
  eapply runs_after_silent; [apply runs_aread; [lia | exact Hb] |].
  rewrite Hb. apply (runs_emit hex_byte).
Qed.

Lemma print_unknown_dumps_descriptor_witness :
  0 <= 2
  /\ nth_error [2; 9; 4; 3; 65; 66] (Z.to_nat 2) = Some 4
  /\ 2 + Z.max 2 4 <= Z.of_nat (List.length [2; 9; 4; 3; 65; 66])
  /\ runs hex_byte (print_unknown [2; 9; 4; 3; 65; 66] 2) [] tt []
          (firstn (Z.to_nat 4) (skipn (Z.to_nat 2) [2; 9; 4; 3; 65; 66])).
Proof.
  split; [lia |]. split; [reflexivity |]. split; [simpl; lia |].
  exact (print_unknown_dumps_descriptor [2; 9; 4; 3; 65; 66] 2 4 []
           ltac:(lia) eq_refl ltac:(simpl; lia)).
Defined.

(** ** Full decode *)

Lemma print_config_quiet_returns sys addr config s :
  exists t w, print_config sys addr config true s = (t, Ret (w, s)).
Proof.
  unfold print_config, bind, ioctl, when, warn, emit, ret.
  destruct (device_cdesc sys addr config) as [cd | errno]; simpl.
  - eexists _, _. reflexivity.
  - destruct (errno =? ENXIO); simpl; eexists _, _; reflexivity.
Qed.

(** X7.  The full decode of one address whose configuration descriptor
    gives the length of a fetched buffer that is a [safe_chain]: the quiet
    decode prints nothing, then come the allocation of that length, the
    fetch, the address prefix and the lines of the walk over the buffer; the
    run returns. *)
Theorem full_dump_safe_chain :
  forall sys fuel name addr config cd data s,
    addr <> 0 ->
    device_cdesc sys addr config = IocOk cd ->
    wTotalLength cd = Z.of_nat (List.length data) ->
    wTotalLength cd < 65536 ->
    malloc_ok sys (wTotalLength cd) = true ->
    device_fdesc sys addr config (wTotalLength cd) = IocOk data ->
    safe_chain data 0 ->
    (List.length data <= fuel)%nat ->
    exists out cursors,
      walk data fuel (Z.of_nat (List.length data)) 0 s = (out, Ret (cursors, s))
      /\ full_dump sys fuel name addr config s
         = ([Ioctl USB_DEVICE_GET_CDESC [addr; config];
             Malloc (wTotalLength cd);
             Ioctl USB_DEVICE_GET_FDESC [addr; config; wTotalLength cd];
             Printf "addr %02u, " [PInt addr]] ++ out,
            Ret (tt, s)).
Proof.
  intros sys fuel name addr config cd data s Haddr Hcd Hlen Hsmall Hm Hfd Hsafe Hfuel.
  destruct (walk_safe_chain data 0 Hsafe ltac:(lia) fuel s ltac:(lia))
    as (out & cs & E & _).
  exists out, cs. split; [exact E |].
  unfold full_dump, nonzero.
  destruct (addr =? 0) eqn:E0; [apply Z.eqb_eq in E0; contradiction |].
  change (negb false) with true. cbv iota.
  assert (Hcfg : print_config sys addr config true s
                 = ([Ioctl USB_DEVICE_GET_CDESC [addr; config]], Ret (wTotalLength cd, s))).
  { unfold print_config, bind, ioctl. rewrite Hcd. simpl.
    rewrite Z.mod_small by lia. reflexivity. }
  rewrite (bind_run _ _ _ _ _ _ Hcfg).
  unfold print_full. unfold bind at 1, malloc. rewrite Hm.
  change (negb true) with false. cbv iota.
  unfold bind at 1, ioctl. rewrite Hfd. cbv iota.
  unfold bind at 1, printf, emit. rewrite Hlen.
  unfold bind. rewrite E. unfold ret. simpl. now rewrite app_nil_r.
Qed.

Lemma full_dump_safe_chain_witness :
  exists out cursors,
    walk config_chain 25 (Z.of_nat (List.length config_chain)) 0 [] = (out, Ret (cursors, []))
    /\ full_dump one_config 25 "/dev/usb0" 1 0 []
       = ([Ioctl USB_DEVICE_GET_CDESC [1; 0]; Malloc 25;
           Ioctl USB_DEVICE_GET_FDESC [1; 0; 25];
           Printf "addr %02u, " [PInt 1]] ++ out,
          Ret (tt, [])).
Proof.
  exact (full_dump_safe_chain one_config 25 "/dev/usb0" 1 0
           {| bConfigurationValue := 1; bNumInterfaces := 1; bMaxPower := 50;
              bmAttributes := 160; wTotalLength := 25 |}
           config_chain []
           ltac:(lia) eq_refl eq_refl ltac:(simpl; lia) eq_refl eq_refl
           config_chain_safe ltac:(simpl; lia)).
Defined.

(** X8.  When no allocation succeeds, the full decode of all addresses
    ends at address 1: after the header and the configuration query of
    address 1 comes the failed [malloc], and the run exits with status 1
    without a query of any other address. *)
Theorem full_dump_out_of_memory :
  forall sys fuel name config s,
    (forall size, malloc_ok sys size = false) ->
    exists t w,
      print_config sys 1 config true s = (t, Ret (w, s))
      /\ full_dump sys fuel name 0 config s
         = (Printf "Controller %s:\n" [PStr name] :: t ++ [Malloc w; Errx "malloc"],
            Exit 1).
Proof.
  intros sys fuel name config s Hm.
  destruct (print_config_quiet_returns sys 1 config s) as (t & w & E).
  exists t, w. split; [exact E |].
  unfold full_dump, nonzero. simpl (negb (0 =? 0)). cbv iota.
  unfold for_each_addr. change (Z.to_nat (USB_MAX_DEVICES - 1)) with (S 126).
  simpl for_range.
  unfold bind at 1, printf, emit.
  unfold bind at 1. unfold bind at 1. rewrite E.
  unfold print_full, bind at 1, malloc. rewrite Hm. reflexivity.
Qed.

Lemma full_dump_out_of_memory_witness :
  exists t w,
    print_config out_of_memory 1 0 true [] = (t, Ret (w, []))
    /\ full_dump out_of_memory 3 "/dev/usb0" 0 0 []
       = (Printf "Controller %s:\n" [PStr "/dev/usb0"] :: t ++ [Malloc w; Errx "malloc"],
          Exit 1).
Proof.
  exact (full_dump_out_of_memory out_of_memory 3 "/dev/usb0" 0 []
           (fun size => eq_refl)).
Defined.

Lemma flat_map_singleton {A : Type} (l : list A) : flat_map (fun e => [e]) l = l.
Proof. induction l as [| x l IH]; simpl; [reflexivity | now rewrite IH]. Qed.

(** X9.  On a controller where the configuration query and the full
    query of every address fail with ENXIO, the full decode of all addresses
    prints the header only: each address in turn gets its configuration
    query, an allocation of 0 bytes and its full query, and the run
    returns. *)
Theorem full_dump_no_devices :
  forall sys fuel name config s,
    (forall a, device_cdesc sys a config = IocErr ENXIO) ->
    (forall a, device_fdesc sys a config 0 = IocErr ENXIO) ->
    malloc_ok sys 0 = true ->
    full_dump sys fuel name 0 config s
    = (Printf "Controller %s:\n" [PStr name]
         :: flat_map (fun a => [Ioctl USB_DEVICE_GET_CDESC [a; config]; Malloc 0;
                                Ioctl USB_DEVICE_GET_FDESC [a; config; 0]]) addresses,
       Ret (tt, s)).
Proof.
  intros sys fuel name config s Hc Hf Hm.
  assert (R : runs (fun e => [e]) (full_dump sys fuel name 0 config) s tt s
                   ([Printf "Controller %s:\n" [PStr name]]
                      ++ flat_map (fun a => [Ioctl USB_DEVICE_GET_CDESC [a; config]; Malloc 0;
                                             Ioctl USB_DEVICE_GET_FDESC [a; config; 0]])
                                  addresses)).
  { unfold full_dump, nonzero. simpl (negb (0 =? 0)). cbv iota.
    eapply runs_bind; [apply (runs_emit (fun e => [e])) |].
    apply runs_for_range_pure. intros a _.
    exists [Ioctl USB_DEVICE_GET_CDESC [a; config]; Malloc 0;
            Ioctl USB_DEVICE_GET_FDESC [a; config; 0]].
    split; [| reflexivity].
    unfold print_config, print_full, bind, ioctl, malloc.
    rewrite Hc. simpl. rewrite Hm, Hf. reflexivity. }
  destruct R as (t & E & D). rewrite flat_map_singleton in D. subst t. exact E.
Qed.

Lemma full_dump_no_devices_witness :
  full_dump no_devices 0 "/dev/usb0" 0 0 []
  = (Printf "Controller %s:\n" [PStr "/dev/usb0"]
       :: flat_map (fun a => [Ioctl USB_DEVICE_GET_CDESC [a; 0]; Malloc 0;
                              Ioctl USB_DEVICE_GET_FDESC [a; 0; 0]]) addresses,
     Ret (tt, [])).
Proof.
  exact (full_dump_no_devices no_devices 0 "/dev/usb0" 0 []
           (fun a => eq_refl) (fun a => eq_refl) eq_refl).
Defined.

(** ** Tiers of the live-info decode *)

Lemma dump_ports_lines di s :
  runs port_line (dump_ports di) s tt s
       (map (fun port => port + 1)
            (range (Z.to_nat (Z.min (udi_nports di)
                                    (Z.of_nat (List.length (udi_ports di))))) 0)).
Proof.
  unfold dump_ports. cbv zeta. rewrite MINIMUM_min.
  set (n := Z.to_nat _).
  assert (Hn : Z.of_nat n <= Z.of_nat (List.length (udi_ports di))) by (subst n; lia).
  replace (map (fun port => port + 1) (range n 0))
    with (flat_map (fun port => [port + 1]) (range n 0))
    by (induction (range n 0); simpl; congruence).
  apply runs_for_range_pure. intros i Hi. unfold dump_port.
  destruct (nth_error_in_bounds (udi_ports di) i ltac:(lia)) as [w Hw].
  eapply runs_after_silent; [apply runs_aread; [lia | exact Hw] |].
  eapply runs_then_silent; [apply (runs_emit port_line) |].
  eapply silent_bind; [apply port_state_silent; reflexivity |].
  apply silent_printf. reflexivity.
Qed.

(** X10.  The port lines of the live-info decode of a device: none unless
    [verbose] is above 1, and then those of the ports 1 to
    [min(udi_nports, nitems(udi_ports))], one each, in order. *)
Theorem dump_device_port_lines :
  forall sys verbose addr di s,
    well_formed sys ->
    0 <= addr < Z.of_nat (List.length s) ->
    deviceinfo sys addr = IocOk di ->
    exists s',
      runs port_line (dump_device sys verbose addr) s tt s'
           (if 1 <? verbose
            then map (fun port => port + 1)
                     (range (Z.to_nat (Z.min (udi_nports di)
                                             (Z.of_nat (List.length (udi_ports di))))) 0)
            else []).
Proof.
  intros sys verbose addr di s Hwf Haddr E.
  destruct (set_done_runs port_line addr s Haddr) as (s' & Rs & _ & _).
  exists s'. unfold dump_device. rewrite E.
  eapply runs_after_silent; [apply (runs_ioctl port_line) |]. cbv beta iota.
  eapply runs_after_silent; [exact Rs |].
  eapply runs_after_silent; [apply silent_printf; reflexivity |].
  eapply runs_after_silent.
  { apply silent_when; intros _.
    eapply silent_bind; [apply silent_printf; reflexivity |].
    eapply silent_bind; [apply print_speed_silent; reflexivity |].
    silent. }
  eapply runs_after_silent; [apply silent_printf; reflexivity |].
  eapply runs_after_silent.
  { apply silent_when; intros _. apply silent_for_range. intros i Hi.
    apply silent_read; [rewrite (Hwf addr di E); lia | intros name]. silent. }
  apply runs_when; [intros ->; apply dump_ports_lines | intros ->; reflexivity].
Qed.

Lemma dump_device_port_lines_witness :
  exists s',
    runs port_line (dump_device two_devices 2 3) (repeat false 128) tt s' [1; 2; 3; 4].
Proof.
  exact (dump_device_port_lines two_devices 2 3 hub (repeat false 128)
           two_devices_well_formed ltac:(simpl; lia) eq_refl).
Defined.

Lemma driver_lines_of_names (names : list string) :
  List.length names = Z.to_nat USB_MAX_DEVNAMES ->
  flat_map (fun i => match nth_error names (Z.to_nat i) with
                     | Some name => if nonempty name then [name] else []
                     | None => []
                     end) (range (Z.to_nat USB_MAX_DEVNAMES) 0)
  = filter nonempty names.
Proof.
  destruct names as [| n0 [| n1 [| n2 [| n3 [| n4 l]]]]]; try discriminate.
  intros _. simpl.
  destruct (nonempty n0), (nonempty n1), (nonempty n2), (nonempty n3); reflexivity.
Qed.

(** X11.  The driver lines of the live-info decode of a device: none
    when [verbose] is 0, and otherwise one for each driver name that is not
    empty, in the order of [udi_devnames]; an empty name gives no line. *)
Theorem dump_device_driver_lines :
  forall sys verbose addr di s,
    well_formed sys ->
    0 <= addr < Z.of_nat (List.length s) ->
    deviceinfo sys addr = IocOk di ->
    exists s',
      runs driver_line (dump_device sys verbose addr) s tt s'
           (if nonzero verbose then filter nonempty (udi_devnames di) else []).
Proof.
  intros sys verbose addr di s Hwf Haddr E.
  destruct (set_done_runs driver_line addr s Haddr) as (s' & Rs & _ & _).
  exists s'. unfold dump_device. rewrite E.
  eapply runs_after_silent; [apply (runs_ioctl driver_line) |]. cbv beta iota.
  eapply runs_after_silent; [exact Rs |].
  eapply runs_after_silent; [apply silent_printf; reflexivity |].
  eapply runs_after_silent.
  { apply silent_when; intros _.
    eapply silent_bind; [apply silent_printf; reflexivity |].
    eapply silent_bind; [apply print_speed_silent; reflexivity |].
    silent. }
  eapply runs_after_silent; [apply silent_printf; reflexivity |].
  eapply runs_then_silent.
  - destruct (nonzero verbose);
      [change (when true ?m) with m | apply runs_ret].
    rewrite <- (driver_lines_of_names _ (Hwf addr di E)).
    apply runs_for_range_pure. intros i Hi.
    destruct (nth_error_in_bounds (udi_devnames di) i
                ltac:(rewrite (Hwf addr di E); lia)) as [name Hname].
    eapply runs_after_silent; [apply runs_aread; [lia | exact Hname] |].
    rewrite Hname.
    destruct (nonempty name); simpl; [apply (runs_emit driver_line) | apply runs_ret].
  - apply silent_when; intros _.
    apply dump_ports_silent; [reflexivity | intros [| [] [| ? ?]]; reflexivity].
Qed.

Lemma dump_device_driver_lines_witness :
  exists s',
    runs driver_line (dump_device two_devices 1 7) (repeat false 128) tt s'
         ["uhidev0"; "uhidev1"].
Proof.
  exact (dump_device_driver_lines two_devices 1 7 keyboard (repeat false 128)
           two_devices_well_formed ltac:(simpl; lia) eq_refl).
Defined.

(** ** Size and shape of the escaped text *)

Lemma string_length_app (s t : string) :
  String.length (s ++ t)%string = (String.length s + String.length t)%nat.
Proof. induction s as [| c s IH]; simpl; [reflexivity | now rewrite IH]. Qed.

Lemma vis_length c nextc :
  code c <> 0 ->
  Nat.leb (String.length (string_of_codes (vis (code c) VIS_CSTYLE nextc))) 4 = true.
Proof.
  destruct c as [[] [] [] [] [] [] [] []]; intros H;
    first [reflexivity | exfalso; apply H; reflexivity].
Qed.

(** X12.  The text [strvis(.., VIS_CSTYLE)] makes of a string is at most
    four times as long as the string, so that with its final NUL it fits the
    buffers [dump_device] gives it, of four times the size of the field
    (which holds the string and its NUL). *)
Theorem strvis_cstyle_length :
  forall s,
    (String.length (strvis s VIS_CSTYLE) <= 4 * String.length s)%nat
    /\ (String.length (strvis s VIS_CSTYLE) + 1 <= 4 * (String.length s + 1))%nat.
Proof.
  assert (H : forall s, (String.length (strvis s VIS_CSTYLE) <= 4 * String.length s)%nat).
  { induction s as [| c r IH]; [simpl; lia |].
    destruct (Z.eq_dec (code c) 0) as [E | E].
    - simpl strvis. rewrite E. simpl. lia.
    - rewrite strvis_cons by exact E. rewrite string_length_app.
      pose proof (vis_length c match r with EmptyString => 0 | String n _ => code n end E) as L.
      apply Nat.leb_le in L. simpl (String.length (String c r)). lia. }
  intros s. split; [apply H | specialize (H s); lia].
Qed.

Lemma vis_plain c nextc :
  plain c = true ->
  string_of_codes (vis (code c) VIS_CSTYLE nextc) = String c EmptyString.
Proof.
  destruct c as [[] [] [] [] [] [] [] []]; intros H;
    first [reflexivity | vm_compute in H; discriminate H].
Qed.

Lemma plain_not_nul c : plain c = true -> code c <> 0.
Proof.
  destruct c as [[] [] [] [] [] [] [] []]; intros H;
    first [discriminate | vm_compute in H; discriminate H].
Qed.

(** X13.  A string of graphic ASCII characters other than the backslash,
    spaces, tabs and newlines is printed as it is: [strvis(.., VIS_CSTYLE)]
    changes nothing in it. *)
Theorem strvis_cstyle_plain :
  forall s, string_forall plain s = true -> strvis s VIS_CSTYLE = s.
Proof.
  induction s as [| c r IH]; intros H; [reflexivity |].
  simpl in H. apply andb_true_iff in H. destruct H as [Hc Hr].
  rewrite strvis_cons by (apply plain_not_nul; exact Hc).
  rewrite vis_plain by exact Hc. simpl. now rewrite IH.
Qed.

Lemma strvis_cstyle_plain_witness :
  string_forall plain "USB2.0 Hub" = true /\ strvis "USB2.0 Hub" VIS_CSTYLE = "USB2.0 Hub".
Proof.
  split; [reflexivity | exact (strvis_cstyle_plain "USB2.0 Hub" eq_refl)].
Defined.

(** ** A length byte of 0, in general *)

(** X14.  On any buffer, once the cursor is inside the buffer on a length
    byte of 0, the walk never returns, whatever the fuel: it either goes on
    without end or reads outside of the buffer; and it does not exit. *)
Theorem walk_zero_length_stuck :
  forall buf wtotlen cur,
    0 <= cur < wtotlen ->
    nth_error buf (Z.to_nat cur) = Some 0 ->
    forall fuel s,
      snd (walk buf fuel wtotlen cur s) = Hang
      \/ exists off, snd (walk buf fuel wtotlen cur s) = Oob off.
Proof.
  intros buf wtotlen cur Hcur Hlen fuel s.
  pose proof (walk_zero_length_never_returns buf wtotlen cur
                ltac:(lia) ltac:(lia) Hlen fuel s) as Hret.
  pose proof (never_exits_walk buf wtotlen fuel cur s) as Hexit.
  destruct (walk buf fuel wtotlen cur s) as [t [r | c | off |]]; simpl in *.
  - exfalso. exact (Hret t r eq_refl).
  - exfalso. exact (Hexit c eq_refl).
  - right. exists off. reflexivity.
  - left. reflexivity.
Qed.

Lemma walk_zero_length_stuck_witness :
  0 <= 9 < 12
  /\ nth_error [9; 2; 12; 0; 1; 1; 0; 128; 50; 0; 4; 0] (Z.to_nat 9) = Some 0
  /\ forall fuel s,
       snd (walk [9; 2; 12; 0; 1; 1; 0; 128; 50; 0; 4; 0] fuel 12 9 s) = Hang
       \/ exists off,
            snd (walk [9; 2; 12; 0; 1; 1; 0; 128; 50; 0; 4; 0] fuel 12 9 s) = Oob off.
Proof.
  split; [lia |]. split; [reflexivity |].
  exact (walk_zero_length_stuck [9; 2; 12; 0; 1; 1; 0; 128; 50; 0; 4; 0] 12 9
           ltac:(lia) eq_refl).
Defined.
